(** * NFL survivor pool optimisation: a shallow embedding of
      [nfl_survivor_pool_2024.py] and the properties of
      [optimize_survivor_pool].

    The odds table is a list of rows, probabilities are exact rationals
    (every finite float is one), the [pulp] problem is an explicit list of
    objective terms and unit-coefficient constraints over binary variables
    keyed by (week, team), and the two things the script delegates to its
    runtime -- the iteration order of [list(set(...))] and the answer of
    [prob.solve()] -- are the two fields of a [Runtime] record, constrained
    only by what Python and an exact solver guarantee. A probability that
    is not a finite number and a call of [pulp] that raises instead of
    answering are outside the embedding.

    The gathering of the odds ([get_weekly_odds] and the loops of
    [get_all_weeks_odds_df]) is embedded over the JSON the script reads, with
    [requests.get] and [isoformat] as the fields of an [Http] record. *)

From Stdlib Require Import ZArith QArith List String Ascii Bool Lia Lqa.
From Stdlib Require Import Permutation DecimalString DecimalN Sorted Qabs.
Import ListNotations.

Open Scope Z_scope.

(** ** The odds table *)

(** One row of the frame returned by [get_all_weeks_odds_df]:
    columns Week, Home Team, Home Probability, Away Team, Away Probability. *)
Record Row := mkRow {
  Week : Z;
  Home_Team : string;
  Home_Probability : Q;
  Away_Team : string;
  Away_Probability : Q
}.

Definition DataFrame := list Row.

(** ** Python helpers *)

Inductive exn := ValueError | IndexError.

Inductive exc (A : Type) :=
| Return (a : A)
| Raise (e : exn).
Arguments Return {A} a.
Arguments Raise {A} e.

Definition bind {A B} (m : exc A) (k : A -> exc B) : exc B :=
  match m with
  | Return a => k a
  | Raise e => Raise e
  end.

Notation "x <- m ;; k" := (bind m (fun x => k))
  (at level 61, m at next level, right associativity).

(** [Series.unique()]: distinct values in order of first appearance. *)
Fixpoint unique (l : list Z) : list Z :=
  match l with
  | [] => []
  | w :: r => w :: filter (fun v => negb (v =? w)) (unique r)
  end.

(** [max(weeks)]: raises ValueError on an empty sequence. *)
Definition py_max (l : list Z) : exc Z :=
  match l with
  | [] => Raise ValueError
  | w :: r => Return (fold_left Z.max r w)
  end.

(** [w in remaining_weeks] and [t in available_teams] on Python lists. *)
Definition in_weeks (w : Z) (l : list Z) : bool := existsb (Z.eqb w) l.
Definition in_teams (t : string) (l : list string) : bool :=
  existsb (String.eqb t) l.

(** [df[mask].iloc[0]]: first selected row, IndexError when none. *)
Definition iloc0 {A} (l : list A) : exc A :=
  match l with
  | [] => Raise IndexError
  | a :: _ => Return a
  end.

(** ** Fixed-precision formatting, [f'{p:.4f}'] *)

(** Nearest integer, ties to even, of an exact rational. *)
Definition round_half_even (q : Q) : Z :=
  let n := Qnum q in
  let d := Zpos (Qden q) in
  let f := n / d in
  let r := n mod d in
  if 2 * r <? d then f
  else if d <? 2 * r then f + 1
  else if Z.even f then f else f + 1.

Definition digit (d : Z) : ascii := ascii_of_nat (48 + Z.to_nat d).

Definition natural_string (n : Z) : string :=
  NilZero.string_of_uint (N.to_uint (Z.to_N n)).

(** The four digits printed after the decimal point. *)
Definition fraction_digits (n : Z) : string :=
  String (digit (n / 1000 mod 10))
 (String (digit (n / 100 mod 10))
 (String (digit (n / 10 mod 10))
 (String (digit (n mod 10)) EmptyString))).

Definition format_4f (p : Q) : string :=
  let scaled := round_half_even (Z.abs (Qnum p) * 10000 # Qden p) in
  let sign := if Qnum p <? 0 then "-"%string else ""%string in
  let whole := natural_string (scaled / 10000) in
  (sign ++ whole ++ "." ++ fraction_digits scaled)%string.

(** ** The [pulp] problem *)

Module pulp.

(** A binary variable [x[(w, t)]], named by its key. *)
Definition LpVariable := (Z * string)%type.

Definition var_eqb (a b : LpVariable) : bool :=
  (fst a =? fst b) && String.eqb (snd a) (snd b).

Inductive LpSense := LpConstraintLE | LpConstraintEQ.

(** [lpSum(vars) <= rhs] or [lpSum(vars) == rhs]. *)
Record LpConstraint := mkConstraint {
  c_expr : list LpVariable;
  c_sense : LpSense;
  c_rhs : Z
}.

(** [LpProblem(name, LpMaximize)] after its [+=]: the objective as a list
    of (coefficient, variable) terms and the constraints in the order they
    were added. *)
Record LpProblem := mkProblem {
  objective : list (Q * LpVariable);
  constraints : list LpConstraint
}.

Inductive LpStatus :=
| LpStatusNotSolved
| LpStatusOptimal
| LpStatusInfeasible
| LpStatusUnbounded
| LpStatusUndefined.

(** The dictionary [pulp.LpStatus]. *)
Definition LpStatus_name (s : LpStatus) : string :=
  match s with
  | LpStatusNotSolved => "Not Solved"
  | LpStatusOptimal => "Optimal"
  | LpStatusInfeasible => "Infeasible"
  | LpStatusUnbounded => "Unbounded"
  | LpStatusUndefined => "Undefined"
  end.

Definition is_LpStatusOptimal (s : LpStatus) : bool :=
  match s with LpStatusOptimal => true | _ => false end.

(** A solution tells, for each variable, whether [pulp.value(v) == 1]. *)
Definition Solution := LpVariable -> bool.

Definition b2z (b : bool) : Z := if b then 1 else 0.

Definition expr_value (s : Solution) (e : list LpVariable) : Z :=
  fold_right (fun v acc => b2z (s v) + acc) 0 e.

Definition satisfies (s : Solution) (c : LpConstraint) : bool :=
  match c_sense c with
  | LpConstraintLE => expr_value s (c_expr c) <=? c_rhs c
  | LpConstraintEQ => expr_value s (c_expr c) =? c_rhs c
  end.

Definition objective_value (s : Solution) (o : list (Q * LpVariable)) : Q :=
  fold_right (fun cv acc => ((if s (snd cv) then fst cv else 0) + acc)%Q) 0%Q o.

Definition feasible (P : LpProblem) (s : Solution) : Prop :=
  forallb (satisfies s) (constraints P) = true.

Definition is_optimal (P : LpProblem) (s : Solution) : Prop :=
  feasible P s /\
  forall s', feasible P s' ->
    (objective_value s' (objective P) <= objective_value s (objective P))%Q.

End pulp.
Import pulp.

(** ** What the script takes from its runtime *)

(** [py_set_list l] is [list(set(l))]; [prob_solve P] is the status returned
    by [prob.solve()] together with the values left in the variables. *)
Record Runtime := mkRuntime {
  py_set_list : list string -> list string;
  prob_solve : LpProblem -> LpStatus * Solution
}.

(** [list(set(l))] has the elements of [l], once each, in some order. *)
Definition set_list_ok (f : list string -> list string) : Prop :=
  forall l, NoDup (f l) /\ forall t, In t (f l) <-> In t l.

(** An exact solver: Optimal with a maximising feasible solution when one
    exists, Infeasible otherwise (binary variables cannot be unbounded). *)
Definition solver_ok (solve : LpProblem -> LpStatus * Solution) : Prop :=
  forall P,
    ((exists s, feasible P s) ->
       fst (solve P) = LpStatusOptimal /\ is_optimal P (snd (solve P))) /\
    (~ (exists s, feasible P s) -> fst (solve P) = LpStatusInfeasible).

Definition runtime_ok (rt : Runtime) : Prop :=
  set_list_ok (py_set_list rt) /\ solver_ok (prob_solve rt).

(** ** [optimize_survivor_pool] *)

(** Lines 106-108. *)
Definition weeks_of (nfl_odds_df : DataFrame) : list Z :=
  unique (map Week nfl_odds_df).

Definition remaining_weeks_of (weeks : list Z) (current_week end_week : Z)
  : list Z :=
  filter (fun w => (current_week <=? w) && (w <=? end_week)) weeks.

(** Lines 109-111, after [list(set(...))] has fixed an order. *)
Definition team_columns (nfl_odds_df : DataFrame) : list string :=
  map Home_Team nfl_odds_df ++ map Away_Team nfl_odds_df.

Definition available_teams_of (teams selected_teams : list string)
  : list string :=
  filter (fun t => negb (in_teams t selected_teams)) teams.

(** Lines 114-115: the keys of the dictionary [x]. *)
Definition x_keys (remaining_weeks : list Z) (available_teams : list string)
  : list LpVariable :=
  flat_map (fun w => map (fun t => (w, t)) available_teams) remaining_weeks.

Definition in_x (x : list LpVariable) (k : LpVariable) : bool :=
  existsb (var_eqb k) x.

(** Lines 117-125: a row adds both of its terms, and only when both of its
    teams pass the guard. *)
Definition objective_terms (nfl_odds_df : DataFrame)
    (remaining_weeks : list Z) (available_teams : list string)
    (x : list LpVariable) : list (Q * LpVariable) :=
  flat_map (fun row =>
    if in_weeks (Week row) remaining_weeks &&
       (in_teams (Home_Team row) available_teams &&
        in_x x (Week row, Home_Team row)) &&
       (in_teams (Away_Team row) available_teams &&
        in_x x (Week row, Away_Team row))
    then [(Home_Probability row, (Week row, Home_Team row));
          (Away_Probability row, (Week row, Away_Team row))]
    else []) nfl_odds_df.

(** Lines 127-129. *)
Definition team_constraint (remaining_weeks : list Z) (x : list LpVariable)
    (t : string) : LpConstraint :=
  mkConstraint
    (filter (in_x x) (map (fun w => (w, t)) remaining_weeks))
    LpConstraintLE 1.

(** Lines 131-133. *)
Definition week_constraint (available_teams : list string)
    (x : list LpVariable) (w : Z) : LpConstraint :=
  mkConstraint
    (filter (in_x x) (map (fun t => (w, t)) available_teams))
    LpConstraintEQ 1.

Definition build_problem (nfl_odds_df : DataFrame)
    (remaining_weeks : list Z) (available_teams : list string) : LpProblem :=
  let x := x_keys remaining_weeks available_teams in
  mkProblem
    (objective_terms nfl_odds_df remaining_weeks available_teams x)
    (map (team_constraint remaining_weeks x) available_teams ++
     map (week_constraint available_teams x) remaining_weeks).

(** One dictionary of [metrics]. *)
Record Metric := mkMetric {
  m_Week : Z;
  Selected_Team : string;
  Opponent_Team : string;
  Selected_Team_Probability : Q;
  Opponent_Team_Probability : Q;
  Expected_Value : Q;
  Reason : string
}.

Definition reason_text (t : string) (p q : Q) : string :=
  ("Selected " ++ t ++ " due to higher probability of " ++ format_4f p ++
   " compared to opponent's probability of " ++ format_4f q)%string.

(** Lines 145-149: the mask of the game lookup. *)
Definition plays (w : Z) (t : string) (row : Row) : bool :=
  ((Week row =? w) && String.eqb (Home_Team row) t) ||
  ((Week row =? w) && String.eqb (Away_Team row) t).

(** Lines 151-166. *)
Definition make_metric (w : Z) (t : string) (selected_game : Row) : Metric :=
  let home_team := Home_Team selected_game in
  let away_team := Away_Team selected_game in
  let is_home := String.eqb t home_team in
  let selected_team_probability :=
    if is_home then Home_Probability selected_game
    else Away_Probability selected_game in
  let opponent_team_probability :=
    if is_home then Away_Probability selected_game
    else Home_Probability selected_game in
  mkMetric w t (if is_home then away_team else home_team)
    selected_team_probability opponent_team_probability
    selected_team_probability
    (reason_text t selected_team_probability opponent_team_probability).

(** Lines 143-166: the inner loop over [available_teams]. *)
Fixpoint week_metrics (nfl_odds_df : DataFrame) (value : Solution) (w : Z)
    (available_teams : list string) : exc (list Metric) :=
  match available_teams with
  | [] => Return []
  | t :: rest =>
      if value (w, t) then
        selected_game <- iloc0 (filter (plays w t) nfl_odds_df) ;;
        more <- week_metrics nfl_odds_df value w rest ;;
        Return (make_metric w t selected_game :: more)
      else week_metrics nfl_odds_df value w rest
  end.

(** Lines 141-166: the outer loop over [remaining_weeks]. *)
Fixpoint all_metrics (nfl_odds_df : DataFrame) (value : Solution)
    (remaining_weeks : list Z) (available_teams : list string)
  : exc (list Metric) :=
  match remaining_weeks with
  | [] => Return []
  | w :: rest =>
      this <- week_metrics nfl_odds_df value w available_teams ;;
      more <- all_metrics nfl_odds_df value rest available_teams ;;
      Return (this ++ more)
  end.

Definition not_optimal_message (s : LpStatus) : string :=
  ("Optimization problem did not solve to optimality. Status: " ++
   LpStatus_name s)%string.

(** The whole function: what it printed, and what it returned or raised. *)
Definition optimize_survivor_pool (rt : Runtime) (nfl_odds_df : DataFrame)
    (current_week : Z) (selected_teams : list string)
    (optimization_duration : Z) : list string * exc (list Metric) :=
  let weeks := weeks_of nfl_odds_df in
  match py_max weeks with
  | Raise e => ([], Raise e)
  | Return max_week =>
      let end_week := Z.min (current_week + optimization_duration - 1) max_week in
      let remaining_weeks := remaining_weeks_of weeks current_week end_week in
      let teams := py_set_list rt (team_columns nfl_odds_df) in
      let available_teams := available_teams_of teams selected_teams in
      let prob := build_problem nfl_odds_df remaining_weeks available_teams in
      let (prob_status, value) := prob_solve rt prob in
      let printed :=
        if is_LpStatusOptimal prob_status then []
        else [not_optimal_message prob_status] in
      (printed, all_metrics nfl_odds_df value remaining_weeks available_teams)
  end.

Definition outcome {A B} (r : A * B) : B := snd r.

(** ** A reference runtime: exhaustive search *)

Definition var_dec (a b : LpVariable) : {a = b} + {a <> b}.
Proof.
  destruct a as [w t], b as [w' t'].
  destruct (Z.eq_dec w w') as [Hw | Hw].
  - destruct (string_dec t t') as [Ht | Ht].
    + left. rewrite Hw, Ht. reflexivity.
    + right. intros H. inversion H. contradiction.
  - right. intros H. inversion H. contradiction.
Defined.

(** Keys in order of week, then of team name. *)
Definition key_leb (a b : LpVariable) : bool :=
  (fst a <? fst b) || ((fst a =? fst b) && String.leb (snd a) (snd b)).

Fixpoint insert_key (k : LpVariable) (l : list LpVariable) : list LpVariable :=
  match l with
  | [] => [k]
  | x :: r => if key_leb k x then k :: l else x :: insert_key k r
  end.

Definition sort_keys (l : list LpVariable) : list LpVariable :=
  fold_right insert_key [] l.

(** Every variable the problem mentions, once, in the order of the keys:
    the search does not depend on the order in which the problem lists its
    variables. *)
Definition problem_vars (P : LpProblem) : list LpVariable :=
  sort_keys
    (nodup var_dec (map snd (objective P) ++ flat_map c_expr (constraints P))).

Fixpoint sublists {A} (l : list A) : list (list A) :=
  match l with
  | [] => [[]]
  | a :: r => map (cons a) (sublists r) ++ sublists r
  end.

(** The solution that sets to 1 exactly the variables of [S]. *)
Definition solution_of (S : list LpVariable) : Solution :=
  fun v => existsb (var_eqb v) S.

Definition feasibleb (P : LpProblem) (s : Solution) : bool :=
  forallb (satisfies s) (constraints P).

Definition candidates (P : LpProblem) : list (list LpVariable) :=
  filter (fun S => feasibleb P (solution_of S)) (sublists (problem_vars P)).

Definition score (P : LpProblem) (S : list LpVariable) : Q :=
  objective_value (solution_of S) (objective P).

(** The feasible sets of variables no other feasible set beats. *)
Definition optima (P : LpProblem) : list (list LpVariable) :=
  let cs := candidates P in
  filter (fun S => forallb (fun S' => Qle_bool (score P S') (score P S)) cs) cs.

(** A choice among the optima: some element of a non-empty list. *)
Definition pick_ok (pick : list (list LpVariable) -> option (list LpVariable))
  : Prop :=
  forall l, match pick l with
            | Some chosen => In chosen l
            | None => l = []
            end.

(** The search returns the chosen optimum; on an infeasible problem it
    reports Infeasible and leaves every variable at 1. *)
Definition exhaustive_solve
    (pick : list (list LpVariable) -> option (list LpVariable))
    (P : LpProblem) : LpStatus * Solution :=
  match pick (optima P) with
  | Some chosen => (LpStatusOptimal, solution_of chosen)
  | None => (LpStatusInfeasible, fun _ => true)
  end.

(** Two runtimes with the same solver, whose sets iterate in opposite
    orders. *)
Definition first_runtime : Runtime :=
  mkRuntime (nodup string_dec) (exhaustive_solve (@hd_error _)).

Definition reversed_runtime : Runtime :=
  mkRuntime (fun l => rev (nodup string_dec l)) (exhaustive_solve (@hd_error _)).

(** The order-free reading of lines 106-111. *)
Definition end_week_of (nfl_odds_df : DataFrame) (current_week duration : Z)
  : Z :=
  match py_max (weeks_of nfl_odds_df) with
  | Return max_week => Z.min (current_week + duration - 1) max_week
  | Raise _ => 0
  end.

Definition horizon (nfl_odds_df : DataFrame) (current_week duration : Z)
  : list Z :=
  remaining_weeks_of (weeks_of nfl_odds_df) current_week
    (end_week_of nfl_odds_df current_week duration).

Definition canonical_available (nfl_odds_df : DataFrame)
    (selected_teams : list string) : list string :=
  available_teams_of (nodup string_dec (team_columns nfl_odds_df))
    selected_teams.

Definition canonical_problem (nfl_odds_df : DataFrame) (current_week : Z)
    (selected_teams : list string) (duration : Z) : LpProblem :=
  build_problem nfl_odds_df (horizon nfl_odds_df current_week duration)
    (canonical_available nfl_odds_df selected_teams).

(** ** The plan as the image of the selected keys *)

Fixpoint mapM {A B} (f : A -> exc B) (l : list A) : exc (list B) :=
  match l with
  | [] => Return []
  | a :: r => b <- f a ;; bs <- mapM f r ;; Return (b :: bs)
  end.

(** The body of the [if] at lines 144-166 for the key [(w, t)]. *)
Definition entry (nfl_odds_df : DataFrame) (k : LpVariable) : exc Metric :=
  selected_game <- iloc0 (filter (plays (fst k) (snd k)) nfl_odds_df) ;;
  Return (make_metric (fst k) (snd k) selected_game).

(** What the constraints of [build_problem] say of a solution. *)
Definition assignment_ok (remaining_weeks : list Z)
    (available_teams : list string) (s : Solution) : Prop :=
  (forall t, In t available_teams ->
     expr_value s (map (fun w => (w, t)) remaining_weeks) <= 1) /\
  (forall w, In w remaining_weeks ->
     expr_value s (map (fun t => (w, t)) available_teams) = 1).

(** The teams and the problem of one run, in the order its runtime gives. *)
Definition runtime_available (rt : Runtime) (nfl_odds_df : DataFrame)
    (selected_teams : list string) : list string :=
  available_teams_of (py_set_list rt (team_columns nfl_odds_df)) selected_teams.

Definition runtime_problem (rt : Runtime) (nfl_odds_df : DataFrame)
    (current_week : Z) (selected_teams : list string) (duration : Z)
  : LpProblem :=
  build_problem nfl_odds_df (horizon nfl_odds_df current_week duration)
    (runtime_available rt nfl_odds_df selected_teams).

(** ** Reading a formatted number *)

Definition is_digit (c : ascii) : bool :=
  (48 <=? Z.of_nat (nat_of_ascii c)) && (Z.of_nat (nat_of_ascii c) <=? 57).

Fixpoint no_point (s : string) : bool :=
  match s with
  | EmptyString => true
  | String c r => negb (Ascii.eqb c ".") && no_point r
  end.

(** [s] is a point-free prefix, a point, and exactly four digits. *)
Definition four_decimals (s : string) : Prop :=
  exists whole d1 d2 d3 d4,
    s = (whole ++ "." ++
         String d1 (String d2 (String d3 (String d4 EmptyString))))%string /\
    no_point whole = true /\
    is_digit d1 = true /\ is_digit d2 = true /\
    is_digit d3 = true /\ is_digit d4 = true.

(** ** The number a printed probability denotes *)

(** The text before and after the first point. *)
Fixpoint split_point (s : string) : option (string * string) :=
  match s with
  | EmptyString => None
  | String c r =>
      if Ascii.eqb c "." then Some (EmptyString, r)
      else match split_point r with
           | Some (before, after) => Some (String c before, after)
           | None => None
           end
  end.

(** The natural number written by a string of decimal digits. *)
Definition read_digits (s : string) : option Z :=
  option_map (fun d => Z.of_N (N.of_uint d)) (NilEmpty.uint_of_string s).

(** Digits, a point and four digits: the number written, times 10000. *)
Definition read_unsigned_4f (s : string) : option Z :=
  match split_point s with
  | Some (whole, fraction) =>
      if Nat.eqb (String.length fraction) 4 && negb (String.eqb whole "")
      then match read_digits whole, read_digits fraction with
           | Some w, Some f => Some (w * 10000 + f)
           | _, _ => None
           end
      else None
  | None => None
  end.

(** The rational written by a numeral with four decimal places and an
    optional minus sign. *)
Definition read_4f (s : string) : option Q :=
  match s with
  | EmptyString => None
  | String c r =>
      if Ascii.eqb c "-"
      then option_map (fun n => (- n) # 10000) (read_unsigned_4f r)
      else option_map (fun n => n # 10000) (read_unsigned_4f s)
  end.

(** [v] is [p] rounded to four decimal places: a multiple of 1/10000 at
    most half of 1/10000 away, with an even last digit when exactly half. *)
Definition rounded_4 (p v : Q) : Prop :=
  exists n : Z,
    v = n # 10000 /\
    (Qabs (v - p) <= 1 # 20000)%Q /\
    ((Qabs (v - p) == 1 # 20000)%Q -> Z.even n = true).

(** [s] is what [f'{p:.4f}'] prints: a numeral with exactly four digits
    after the point that denotes [p] rounded to four decimal places. *)
Definition prints_4f (p : Q) (s : string) : Prop :=
  four_decimals s /\ exists v, read_4f s = Some v /\ rounded_4 p v.

(** ** Tables used as examples *)

Open Scope string_scope.

(** The scenario of two weeks and two teams: A 0.9 v B 0.5, then
    A 0.6 v B 0.8. *)
Definition two_week_table : DataFrame :=
  [mkRow 1 "A" (9 # 10) "B" (5 # 10); mkRow 2 "A" (6 # 10) "B" (8 # 10)].

(** B is a heavy underdog in week 1 and A is needed in week 2. *)
Definition underdog_table : DataFrame :=
  [mkRow 1 "A" (9 # 10) "B" (1 # 10); mkRow 2 "A" (95 # 100) "B" (5 # 100)].

(** One week, two games; B will be excluded. *)
Definition excluded_opponent_table : DataFrame :=
  [mkRow 1 "A" (9 # 10) "B" (1 # 10); mkRow 1 "C" (5 # 10) "D" (4 # 10)].


(** A appears in two games of week 1. *)
Definition conflict_table : DataFrame :=
  [mkRow 1 "A" (6 # 10) "B" (3 # 10); mkRow 1 "A" (7 # 10) "C" (2 # 10)].

(** Entries that runs on these tables return. *)
Definition A_week1 : Metric :=
  make_metric 1 "A" (mkRow 1 "A" (9 # 10) "B" (5 # 10)).

Definition A_first_game : Metric :=
  make_metric 1 "A" (mkRow 1 "A" (6 # 10) "B" (3 # 10)).

Definition B_week1 : Metric :=
  make_metric 1 "B" (mkRow 1 "A" (9 # 10) "B" (5 # 10)).

Definition B_week2 : Metric :=
  make_metric 2 "B" (mkRow 2 "A" (6 # 10) "B" (8 # 10)).

Definition C_week1 : Metric :=
  make_metric 1 "C" (mkRow 1 "C" (5 # 10) "D" (4 # 10)).

Close Scope string_scope.

(** ** Conditions on the input *)

(** At least as many available teams as weeks in the horizon: the condition
    under which the constraints of [build_problem] can be met. *)
Definition enough_teams (nfl_odds_df : DataFrame) (current_week : Z)
    (selected_teams : list string) (duration : Z) : Prop :=
  (List.length (horizon nfl_odds_df current_week duration) <=
   List.length (canonical_available nfl_odds_df selected_teams))%nat.

(** All optima of the problem select the same keys. *)
Definition unique_optimum (nfl_odds_df : DataFrame) (current_week : Z)
    (selected_teams : list string) (duration : Z) : Prop :=
  exists s0,
    is_optimal
      (canonical_problem nfl_odds_df current_week selected_teams duration) s0 /\
    forall s,
      is_optimal
        (canonical_problem nfl_odds_df current_week selected_teams duration) s ->
      forall k,
        In k (x_keys (horizon nfl_odds_df current_week duration)
                (canonical_available nfl_odds_df selected_teams)) ->
        s k = s0 k.

(** ** Weights of an assignment *)

Definition qsum (l : list Q) : Q := fold_right Qplus 0%Q l.

(** The coefficient of [x[k]] in an objective: the sum of its terms. *)
Definition key_weight (o : list (Q * LpVariable)) (k : LpVariable) : Q :=
  qsum (map fst (filter (fun cv => var_eqb (snd cv) k) o)).

(** The key whose variable an entry of the plan reports. *)
Definition key_of (m : Metric) : LpVariable := (m_Week m, Selected_Team m).

(** What lines 145-156 read for the key [k]: the probability of the team in
    the first game it plays that week, and nothing for a team without one. *)
Definition probability_of (nfl_odds_df : DataFrame) (k : LpVariable) : Q :=
  match find (plays (fst k) (snd k)) nfl_odds_df with
  | Some game =>
      if String.eqb (snd k) (Home_Team game) then Home_Probability game
      else Away_Probability game
  | None => 0%Q
  end.

(** No team plays itself, and no team is in two games of one week. *)
Definition conflict_free (nfl_odds_df : DataFrame) : Prop :=
  (forall row, In row nfl_odds_df -> Home_Team row <> Away_Team row) /\
  (forall w t, (List.length (filter (plays w t) nfl_odds_df) <= 1)%nat).

(** No game of the weeks [remaining_weeks] has an excluded side. *)
Definition no_excluded_side (nfl_odds_df : DataFrame)
    (remaining_weeks : list Z) (selected_teams : list string) : Prop :=
  forall row, In row nfl_odds_df -> In (Week row) remaining_weeks ->
    ~ In (Home_Team row) selected_teams /\ ~ In (Away_Team row) selected_teams.

(** Two tables with the same games, and the same probabilities in the weeks
    [remaining_weeks]. *)
Definition same_in_horizon (remaining_weeks : list Z) (row row' : Row) : Prop :=
  Week row = Week row' /\ Home_Team row = Home_Team row' /\
  Away_Team row = Away_Team row' /\
  (In (Week row) remaining_weeks ->
     Home_Probability row = Home_Probability row' /\
     Away_Probability row = Away_Probability row').

(** ** Gathering the odds: [get_weekly_odds] and the loop of
       [get_all_weeks_odds_df] *)

(** The JSON of The Odds API, as far as the script reads it. A key read with
    [d[k]] is a field; a key read with [d.get(k, [])] is an optional field. *)
Record Outcome := mkOutcome {
  outcome_name : string;
  outcome_price : Q
}.

Record Market := mkMarket {
  market_key : string;
  market_outcomes : option (list Outcome)
}.

Record Bookmaker := mkBookmaker {
  bookmaker_key : string;
  bookmaker_markets : option (list Market)
}.

Record Game := mkGame {
  home_team : string;
  away_team : string;
  commence_time : string;
  game_bookmakers : option (list Bookmaker)
}.

(** [d.get(k, [])]. *)
Definition get_list {A} (field : option (list A)) : list A :=
  match field with
  | Some l => l
  | None => []
  end.

Record Response := mkResponse {
  status_code : Z;
  text : string;
  json : list Game
}.

(** The dictionary [params]. *)
Record Params := mkParams {
  apiKey : string;
  regions : string;
  markets : string;
  oddsFormat : string;
  bookmakers : string;
  commenceTimeFrom : string;
  commenceTimeTo : string
}.

(** What [get_weekly_odds] takes from its libraries: [isoformat] of a
    midnight, given by the ordinal of its day, and [requests.get]. *)
Record Http := mkHttp {
  isoformat : Z -> string;
  requests_get : string -> Params -> Response
}.

Definition BASE_URL : string :=
  "https://api.the-odds-api.com/v4/sports/americanfootball_nfl/odds".

(** [datetime.datetime(2024, 9, 5)], as the ordinal of the day. *)
Definition datetime_2024_9_5 : Z := 739134.

(** Lines 26-28. *)
Definition start_date (week_number : Z) : Z :=
  datetime_2024_9_5 + 7 * (week_number - 1).

Definition end_date (week_number : Z) : Z := start_date week_number + 7.

(** Lines 30-38. *)
Definition params_of (http : Http) (api_key : string) (week_number : Z)
  : Params :=
  mkParams api_key "us" "h2h,spreads,totals" "decimal" "draftkings"
    (isoformat http (start_date week_number) ++ "Z")
    (isoformat http (end_date week_number) ++ "Z").

(** An integer in an f-string. *)
Definition int_string (z : Z) : string :=
  if z <? 0 then ("-" ++ natural_string (- z))%string else natural_string z.

Definition failed_message (response : Response) : string :=
  ("Failed to get data: " ++ int_string (status_code response) ++ ", " ++
   text response)%string.

(** Lines 15-46: what is printed, and the JSON or [None]. *)
Definition get_weekly_odds (http : Http) (api_key : string) (week_number : Z)
  : list string * option (list Game) :=
  let response := requests_get http BASE_URL (params_of http api_key week_number) in
  if status_code response =? 200 then ([], Some (json response))
  else ([failed_message response], None).

(** The dictionary [game_data]. *)
Record GameData := mkGameData {
  gd_Week : Z;
  gd_Home_Team : string;
  gd_Away_Team : string;
  gd_Commence_Time : string;
  Home_Team_Moneyline : option Q;
  Away_Team_Moneyline : option Q
}.

Definition set_Home_Team_Moneyline (game_data : GameData) (price : Q)
  : GameData :=
  mkGameData (gd_Week game_data) (gd_Home_Team game_data)
    (gd_Away_Team game_data) (gd_Commence_Time game_data)
    (Some price) (Away_Team_Moneyline game_data).

Definition set_Away_Team_Moneyline (game_data : GameData) (price : Q)
  : GameData :=
  mkGameData (gd_Week game_data) (gd_Home_Team game_data)
    (gd_Away_Team game_data) (gd_Commence_Time game_data)
    (Home_Team_Moneyline game_data) (Some price).

(** Lines 78-82: the body of the loop over the outcomes. *)
Definition outcome_step (game : Game) (game_data : GameData)
    (outcome : Outcome) : GameData :=
  if String.eqb (outcome_name outcome) (home_team game)
  then set_Home_Team_Moneyline game_data (outcome_price outcome)
  else if String.eqb (outcome_name outcome) (away_team game)
  then set_Away_Team_Moneyline game_data (outcome_price outcome)
  else game_data.

(** Lines 76-82: the body of the loop over the markets. *)
Definition market_step (game : Game) (game_data : GameData)
    (market : Market) : GameData :=
  if String.eqb (market_key market) "h2h"
  then fold_left (outcome_step game) (get_list (market_outcomes market))
         game_data
  else game_data.

(** Lines 74-82: the body of the loop over the bookmakers. *)
Definition bookmaker_step (game : Game) (game_data : GameData)
    (bookmaker : Bookmaker) : GameData :=
  if String.eqb (bookmaker_key bookmaker) "draftkings"
  then fold_left (market_step game) (get_list (bookmaker_markets bookmaker))
         game_data
  else game_data.

(** Lines 66-82: the dictionary appended for one game. *)
Definition game_data_of (week : Z) (game : Game) : GameData :=
  fold_left (bookmaker_step game) (get_list (game_bookmakers game))
    (mkGameData week (home_team game) (away_team game) (commence_time game)
       None None).

(** [if weekly_odds:] is false for [None] and for the empty list. *)
Definition truthy {A} (weekly_odds : option (list A)) : bool :=
  match weekly_odds with
  | Some (_ :: _) => true
  | _ => false
  end.

(** Lines 63-83: one round of the loop over the weeks, on what has been
    printed and on [all_odds]. *)
Definition week_step (http : Http) (api_key : string)
    (state : list string * list GameData) (week : Z)
  : list string * list GameData :=
  let (printed, weekly_odds) := get_weekly_odds http api_key week in
  (fst state ++ printed,
   if truthy weekly_odds
   then fold_left (fun all_odds game => all_odds ++ [game_data_of week game])
          (get_list weekly_odds) (snd state)
   else snd state).

(** [range(1, 19)]. *)
Definition range_1_19 : list Z := map Z.of_nat (seq 1 18).

(** Lines 61-83 of [get_all_weeks_odds_df]: what is printed and the list
    [all_odds] from which the frame is made. (Lines 85-88 divide 1 by the
    moneylines in floating point and keep the Week and team columns.) *)
Definition all_odds_of (http : Http) (api_key : string)
  : list string * list GameData :=
  fold_left (week_step http api_key) range_1_19 ([], []).

(** The outcomes the loops of lines 74-82 reach, in the order they reach
    them. *)
Definition h2h_outcomes (game : Game) : list Outcome :=
  flat_map (fun bookmaker =>
    if String.eqb (bookmaker_key bookmaker) "draftkings"
    then flat_map (fun market =>
           if String.eqb (market_key market) "h2h"
           then get_list (market_outcomes market)
           else [])
         (get_list (bookmaker_markets bookmaker))
    else [])
  (get_list (game_bookmakers game)).

(** The last element of [l] that satisfies [f]. *)
Definition find_last {A} (f : A -> bool) (l : list A) : option A :=
  find f (rev l).

(** The response to the request of one week. *)
Definition response_of (http : Http) (api_key : string) (week : Z) : Response :=
  requests_get http BASE_URL (params_of http api_key week).

(** A server for examples: status 200 with one game in week 1, status 404
    in every other week. *)
Definition example_game : Game :=
  mkGame "A" "B" "2024-09-08T17:00:00Z"
    (Some [mkBookmaker "fanduel"
             (Some [mkMarket "h2h" (Some [mkOutcome "A" (3 # 1)])]);
           mkBookmaker "draftkings"
             (Some [mkMarket "spreads" (Some [mkOutcome "A" (19 # 10)]);
                    mkMarket "h2h"
                      (Some [mkOutcome "A" (15 # 10); mkOutcome "B" (26 # 10);
                             mkOutcome "A" (16 # 10)])])]).

Definition example_http : Http :=
  mkHttp (fun day => int_string day)
    (fun _ params =>
       if String.eqb (commenceTimeFrom params) "739134Z"
       then mkResponse 200 "" [example_game]
       else mkResponse 404 "Not Found" []).

(** * Properties *)

(** ** Membership tests *)

Lemma in_weeks_In (w : Z) (l : list Z) : in_weeks w l = true <-> In w l.
Proof.
  unfold in_weeks. rewrite existsb_exists. split.
  - intros [v [Hv He]]. apply Z.eqb_eq in He. subst. assumption.
  - intros H. exists w. split; [assumption | apply Z.eqb_refl].
Qed.

Lemma in_teams_In (t : string) (l : list string) : in_teams t l = true <-> In t l.
Proof.
  unfold in_teams. rewrite existsb_exists. split.
  - intros [v [Hv He]]. apply String.eqb_eq in He. subst. assumption.
  - intros H. exists t. split; [assumption | apply String.eqb_refl].
Qed.

Lemma var_eqb_eq (a b : LpVariable) : var_eqb a b = true <-> a = b.
Proof.
  destruct a as [w t], b as [w' t']. unfold var_eqb. simpl.
  rewrite andb_true_iff, Z.eqb_eq, String.eqb_eq. split.
  - intros [-> ->]. reflexivity.
  - intros H. inversion H. split; reflexivity.
Qed.

Lemma solution_of_In (S : list LpVariable) (v : LpVariable) :
  solution_of S v = true <-> In v S.
Proof.
  unfold solution_of. rewrite existsb_exists. split.
  - intros [u [Hu He]]. apply var_eqb_eq in He. subst. assumption.
  - intros H. exists v. split; [assumption | apply var_eqb_eq; reflexivity].
Qed.

Lemma bool_eq_iff (a b : bool) : (a = true <-> b = true) -> a = b.
Proof. destruct a, b; intuition congruence. Qed.

Lemma x_keys_In (rem : list Z) (avail : list string) (w : Z) (t : string) :
  In (w, t) (x_keys rem avail) <-> In w rem /\ In t avail.
Proof.
  unfold x_keys. rewrite in_flat_map. split.
  - intros [w' [Hw Hin]]. apply in_map_iff in Hin.
    destruct Hin as [t' [He Ht]]. inversion He. subst. split; assumption.
  - intros [Hw Ht]. exists w. split; [assumption |].
    apply in_map_iff. exists t. split; [reflexivity | assumption].
Qed.

Lemma in_x_keys (rem : list Z) (avail : list string) (w : Z) (t : string) :
  in_x (x_keys rem avail) (w, t) = in_weeks w rem && in_teams t avail.
Proof.
  apply bool_eq_iff. unfold in_x.
  rewrite andb_true_iff, in_weeks_In, in_teams_In, <- x_keys_In.
  apply (solution_of_In (x_keys rem avail) (w, t)).
Qed.

(** ** [unique] *)

Lemma unique_In (l : list Z) (w : Z) : In w (unique l) <-> In w l.
Proof.
  induction l as [| a r IH]; simpl; [tauto |].
  rewrite filter_In, IH, negb_true_iff, Z.eqb_neq.
  destruct (Z.eq_dec a w); intuition congruence.
Qed.

Lemma unique_NoDup (l : list Z) : NoDup (unique l).
Proof.
  induction l as [| a r IH]; simpl; constructor.
  - rewrite filter_In, negb_true_iff, Z.eqb_neq. intros [_ H]. congruence.
  - apply NoDup_filter. assumption.
Qed.

Lemma fold_left_max_init (l : list Z) (a : Z) : a <= fold_left Z.max l a.
Proof.
  revert a. induction l as [| b r IH]; simpl; intros a; [lia |].
  specialize (IH (Z.max a b)). lia.
Qed.

Lemma fold_left_max_ge (l : list Z) (a w : Z) :
  In w l -> w <= fold_left Z.max l a.
Proof.
  revert a. induction l as [| b r IH]; simpl; intros a H; [contradiction |].
  destruct H as [Hb | H].
  - subst b. pose proof (fold_left_max_init r (Z.max a w)). lia.
  - apply IH, H.
Qed.

Lemma py_max_ge (l : list Z) (m w : Z) :
  py_max l = Return m -> In w l -> w <= m.
Proof.
  destruct l as [| a r]; simpl; [discriminate |].
  intros H Hin. inversion H. destruct Hin as [Ha | Hin].
  - subst w. apply fold_left_max_init.
  - apply fold_left_max_ge, Hin.
Qed.

(** ** The exhaustive solver meets the solver contract *)

Lemma sublists_filter {A} (f : A -> bool) (l : list A) :
  In (filter f l) (sublists l).
Proof.
  induction l as [| a r IH]; simpl; [left; reflexivity |].
  apply in_or_app. destruct (f a).
  - left. apply in_map. assumption.
  - right. assumption.
Qed.

Lemma solution_of_filter (s : Solution) (l : list LpVariable) (v : LpVariable) :
  In v l -> solution_of (filter s l) v = s v.
Proof.
  intros Hv. apply bool_eq_iff. rewrite solution_of_In, filter_In. tauto.
Qed.

Lemma expr_value_ext (s s' : Solution) (e : list LpVariable) :
  (forall v, In v e -> s v = s' v) -> expr_value s e = expr_value s' e.
Proof.
  induction e as [| a r IH]; simpl; intros H; [reflexivity |].
  rewrite (H a (or_introl eq_refl)), IH; [reflexivity |].
  intros v Hv. apply H. right. assumption.
Qed.

Lemma objective_value_ext (s s' : Solution) (o : list (Q * LpVariable)) :
  (forall v, In v (map snd o) -> s v = s' v) ->
  objective_value s o = objective_value s' o.
Proof.
  induction o as [| a r IH]; simpl; intros H; [reflexivity |].
  rewrite (H (snd a) (or_introl eq_refl)), IH; [reflexivity |].
  intros v Hv. apply H. right. assumption.
Qed.

Lemma satisfies_ext (s s' : Solution) (c : LpConstraint) :
  (forall v, In v (c_expr c) -> s v = s' v) -> satisfies s c = satisfies s' c.
Proof.
  intros H. unfold satisfies. rewrite (expr_value_ext s s' _ H). reflexivity.
Qed.

Lemma forallb_agree {A} (f g : A -> bool) (l : list A) :
  (forall a, In a l -> f a = g a) -> forallb f l = forallb g l.
Proof.
  induction l as [| a r IH]; simpl; intros H; [reflexivity |].
  rewrite (H a (or_introl eq_refl)), IH; [reflexivity |].
  intros b Hb. apply H. right. assumption.
Qed.

Lemma insert_key_In (k v : LpVariable) (l : list LpVariable) :
  In v (insert_key k l) <-> v = k \/ In v l.
Proof.
  induction l as [| x r IH]; simpl; [intuition congruence |].
  destruct (key_leb k x); simpl; [intuition congruence |].
  rewrite IH. intuition congruence.
Qed.

Lemma sort_keys_In (v : LpVariable) (l : list LpVariable) :
  In v (sort_keys l) <-> In v l.
Proof.
  induction l as [| k r IH]; simpl; [tauto |].
  rewrite insert_key_In, IH. intuition congruence.
Qed.

Lemma problem_vars_objective (P : LpProblem) (v : LpVariable) :
  In v (map snd (objective P)) -> In v (problem_vars P).
Proof.
  intros H. apply sort_keys_In, nodup_In, in_or_app. left. assumption.
Qed.

Lemma problem_vars_constraint (P : LpProblem) (c : LpConstraint) (v : LpVariable) :
  In c (constraints P) -> In v (c_expr c) -> In v (problem_vars P).
Proof.
  intros Hc Hv. apply sort_keys_In, nodup_In, in_or_app. right.
  apply in_flat_map. exists c. split; assumption.
Qed.

Lemma feasibleb_ext (P : LpProblem) (s s' : Solution) :
  (forall v, In v (problem_vars P) -> s v = s' v) ->
  feasibleb P s = feasibleb P s'.
Proof.
  intros H. unfold feasibleb. apply forallb_agree.
  intros c Hc. apply satisfies_ext.
  intros v Hv. apply H. apply (problem_vars_constraint P c v Hc Hv).
Qed.

Lemma score_restrict (P : LpProblem) (s : Solution) :
  score P (filter s (problem_vars P)) = objective_value s (objective P).
Proof.
  unfold score. apply objective_value_ext.
  intros v Hv. apply solution_of_filter, problem_vars_objective, Hv.
Qed.

Lemma candidates_restrict (P : LpProblem) (s : Solution) :
  feasible P s -> In (filter s (problem_vars P)) (candidates P).
Proof.
  intros H. unfold candidates. apply filter_In. split.
  - apply sublists_filter.
  - rewrite (feasibleb_ext P _ s); [exact H |].
    intros v Hv. apply solution_of_filter, Hv.
Qed.

Lemma optima_optimal (P : LpProblem) (S : list LpVariable) :
  In S (optima P) -> is_optimal P (solution_of S).
Proof.
  unfold optima. rewrite filter_In. intros [Hc Hb]. split.
  - unfold candidates in Hc. apply filter_In in Hc. exact (proj2 Hc).
  - intros s' Hs'. rewrite forallb_forall in Hb.
    specialize (Hb _ (candidates_restrict P s' Hs')).
    apply Qle_bool_iff in Hb. rewrite score_restrict in Hb. exact Hb.
Qed.

Lemma optimal_in_optima (P : LpProblem) (s : Solution) :
  is_optimal P s -> In (filter s (problem_vars P)) (optima P).
Proof.
  intros [Hf Hbest]. unfold optima. apply filter_In. split.
  - apply candidates_restrict, Hf.
  - apply forallb_forall. intros S' HS'. apply Qle_bool_iff.
    rewrite score_restrict. apply Hbest.
    unfold candidates in HS'. apply filter_In in HS'. exact (proj2 HS').
Qed.

Lemma exists_best {A} (f : A -> Q) (l : list A) :
  l <> [] -> exists a, In a l /\ forall b, In b l -> (f b <= f a)%Q.
Proof.
  induction l as [| a r IH]; [congruence |]. intros _.
  destruct r as [| a' r'].
  - exists a. split; [left; reflexivity |].
    intros b [<- | []]. apply Qle_refl.
  - destruct IH as [m [Hm Hbest]]; [discriminate |].
    destruct (Qlt_le_dec (f m) (f a)) as [Hlt | Hle].
    + exists a. split; [left; reflexivity |].
      intros b [<- | Hb]; [apply Qle_refl |].
      apply Qle_trans with (f m); [apply Hbest, Hb | apply Qlt_le_weak, Hlt].
    + exists m. split; [right; exact Hm |].
      intros b [<- | Hb]; [exact Hle | apply Hbest, Hb].
Qed.

Lemma optima_nonempty (P : LpProblem) :
  (exists s, feasible P s) -> optima P <> [].
Proof.
  intros [s Hs].
  destruct (exists_best (score P) (candidates P)) as [S [HS Hbest]].
  - intros He. pose proof (candidates_restrict P s Hs) as H.
    rewrite He in H. exact H.
  - intros He. assert (H : In S (optima P)).
    { unfold optima. apply filter_In. split; [exact HS |].
      apply forallb_forall. intros S' HS'. apply Qle_bool_iff, Hbest, HS'. }
    rewrite He in H. exact H.
Qed.

Lemma optima_feasible (P : LpProblem) (S : list LpVariable) :
  In S (optima P) -> exists s, feasible P s.
Proof.
  intros H. exists (solution_of S). apply (optima_optimal P S H).
Qed.

Lemma exhaustive_solve_ok pick : pick_ok pick -> solver_ok (exhaustive_solve pick).
Proof.
  intros Hpick P. unfold exhaustive_solve.
  specialize (Hpick (optima P)).
  destruct (pick (optima P)) as [S |]; simpl; split.
  - intros _. split; [reflexivity | apply optima_optimal, Hpick].
  - intros Hno. exfalso. apply Hno. apply (optima_feasible P S Hpick).
  - intros Hex. exfalso. apply (optima_nonempty P Hex Hpick).
  - reflexivity.
Qed.

Lemma hd_error_pick_ok : pick_ok (@hd_error _).
Proof. intros [| S l]; simpl; [reflexivity | left; reflexivity]. Qed.

Lemma first_runtime_ok : runtime_ok first_runtime.
Proof.
  split.
  - intros l. split; [apply NoDup_nodup | intros t; apply nodup_In].
  - apply exhaustive_solve_ok, hd_error_pick_ok.
Qed.

Lemma reversed_runtime_ok : runtime_ok reversed_runtime.
Proof.
  split.
  - intros l. simpl. split.
    + apply NoDup_rev, NoDup_nodup.
    + intros t. rewrite <- in_rev. apply nodup_In.
  - apply exhaustive_solve_ok, hd_error_pick_ok.
Qed.

(** ** The two loops compute the image of the selected keys *)

Lemma mapM_app {A B} (f : A -> exc B) (l1 l2 : list A) :
  mapM f (l1 ++ l2) =
  (a <- mapM f l1 ;; b <- mapM f l2 ;; Return (a ++ b)).
Proof.
  induction l1 as [| x r IH]; simpl.
  - destruct (mapM f l2); reflexivity.
  - destruct (f x) as [y | e]; simpl; [| reflexivity].
    rewrite IH. destruct (mapM f r) as [ys | e]; simpl; [| reflexivity].
    destruct (mapM f l2); reflexivity.
Qed.

Lemma mapM_Return {A B} (f : A -> exc B) (l : list A) (r : list B) :
  mapM f l = Return r -> Forall2 (fun a b => f a = Return b) l r.
Proof.
  revert r. induction l as [| a l IH]; simpl; intros r H.
  - inversion H. constructor.
  - destruct (f a) as [b | e] eqn:Ea; simpl in H; [| discriminate].
    destruct (mapM f l) as [bs | e]; simpl in H; [| discriminate].
    inversion H. constructor; [exact Ea | apply IH; reflexivity].
Qed.

Lemma mapM_Raise {A B} (f : A -> exc B) (l : list A) (e : exn) :
  mapM f l = Raise e -> exists a, In a l /\ f a = Raise e.
Proof.
  induction l as [| a l IH]; simpl; intros H; [discriminate |].
  destruct (f a) as [b | e'] eqn:Ea; simpl in H.
  - destruct (mapM f l) as [bs | e'']; simpl in H; [discriminate |].
    destruct (IH H) as [a' [Hin Ha']]. exists a'. split; [right |]; assumption.
  - exists a. split; [left; reflexivity | congruence].
Qed.

Lemma mapM_In {A B} (f : A -> exc B) (l : list A) (r : list B) (b : B) :
  mapM f l = Return r -> In b r -> exists a, In a l /\ f a = Return b.
Proof.
  intros H. apply mapM_Return in H.
  induction H as [| a b' l r Hab _ IH]; simpl; [contradiction |].
  intros [<- | Hb].
  - exists a. split; [left; reflexivity | exact Hab].
  - destruct (IH Hb) as [a' [Hin Ha']]. exists a'. split; [right |]; assumption.
Qed.

Lemma week_metrics_filter (df : DataFrame) (value : Solution) (w : Z)
    (ts : list string) :
  week_metrics df value w ts =
  mapM (entry df) (filter value (map (fun t => (w, t)) ts)).
Proof.
  induction ts as [| t r IH]; simpl; [reflexivity |].
  destruct (value (w, t)); simpl; [| exact IH].
  unfold entry at 1. simpl.
  destruct (iloc0 (filter (plays w t) df)); simpl; [| reflexivity].
  rewrite IH. reflexivity.
Qed.

Lemma filter_flat_map {A B} (f : B -> bool) (g : A -> list B) (l : list A) :
  filter f (flat_map g l) = flat_map (fun a => filter f (g a)) l.
Proof.
  induction l as [| a r IH]; simpl; [reflexivity |].
  rewrite filter_app, IH. reflexivity.
Qed.

Lemma all_metrics_filter (df : DataFrame) (value : Solution)
    (rem : list Z) (avail : list string) :
  all_metrics df value rem avail =
  mapM (entry df) (filter value (x_keys rem avail)).
Proof.
  unfold x_keys. rewrite filter_flat_map.
  induction rem as [| w r IH]; simpl; [reflexivity |].
  rewrite mapM_app, week_metrics_filter, IH. reflexivity.
Qed.

(** ** Feasibility, read off the constraints *)

Lemma filter_all {A} (f : A -> bool) (l : list A) :
  (forall a, In a l -> f a = true) -> filter f l = l.
Proof.
  induction l as [| a r IH]; simpl; intros H; [reflexivity |].
  rewrite (H a (or_introl eq_refl)), IH; [reflexivity |].
  intros b Hb. apply H. right. assumption.
Qed.

Lemma team_constraint_expr (rem : list Z) (avail : list string) (t : string) :
  In t avail ->
  c_expr (team_constraint rem (x_keys rem avail) t) =
  map (fun w => (w, t)) rem.
Proof.
  intros Ht. simpl. apply filter_all. intros k Hk.
  apply in_map_iff in Hk. destruct Hk as [w [<- Hw]].
  rewrite in_x_keys. apply andb_true_iff.
  split; [apply in_weeks_In | apply in_teams_In]; assumption.
Qed.

Lemma week_constraint_expr (rem : list Z) (avail : list string) (w : Z) :
  In w rem ->
  c_expr (week_constraint avail (x_keys rem avail) w) =
  map (fun t => (w, t)) avail.
Proof.
  intros Hw. simpl. apply filter_all. intros k Hk.
  apply in_map_iff in Hk. destruct Hk as [t [<- Ht]].
  rewrite in_x_keys. apply andb_true_iff.
  split; [apply in_weeks_In | apply in_teams_In]; assumption.
Qed.

Lemma feasible_build_iff (df : DataFrame) (rem : list Z) (avail : list string)
    (s : Solution) :
  feasible (build_problem df rem avail) s <-> assignment_ok rem avail s.
Proof.
  unfold feasible, assignment_ok. simpl.
  rewrite forallb_app, andb_true_iff, !forallb_forall. split.
  - intros [Ht Hw]. split.
    + intros t Hin.
      specialize (Ht _ (in_map (team_constraint rem (x_keys rem avail)) _ _ Hin)).
      unfold satisfies in Ht. rewrite team_constraint_expr in Ht by assumption.
      simpl in Ht. apply Z.leb_le. exact Ht.
    + intros w Hin.
      specialize (Hw _ (in_map (week_constraint avail (x_keys rem avail)) _ _ Hin)).
      unfold satisfies in Hw. rewrite week_constraint_expr in Hw by assumption.
      simpl in Hw. apply Z.eqb_eq. exact Hw.
  - intros [Ht Hw]. split.
    + intros c Hc. apply in_map_iff in Hc. destruct Hc as [t [<- Hin]].
      unfold satisfies. rewrite team_constraint_expr by assumption.
      simpl. apply Z.leb_le, Ht, Hin.
    + intros c Hc. apply in_map_iff in Hc. destruct Hc as [w [<- Hin]].
      unfold satisfies. rewrite week_constraint_expr by assumption.
      simpl. apply Z.eqb_eq, Hw, Hin.
Qed.

Lemma expr_value_length (s : Solution) (e : list LpVariable) :
  expr_value s e = Z.of_nat (List.length (filter s e)).
Proof.
  induction e as [| v r IH]; simpl; [reflexivity |].
  rewrite IH. destruct (s v); simpl b2z; simpl List.length; lia.
Qed.

Lemma expr_value_perm (s : Solution) (e e' : list LpVariable) :
  Permutation e e' -> expr_value s e = expr_value s e'.
Proof.
  intros H. induction H; simpl; try lia.
Qed.

Lemma assignment_ok_perm (rem : list Z) (avail avail' : list string)
    (s : Solution) :
  Permutation avail avail' ->
  assignment_ok rem avail s -> assignment_ok rem avail' s.
Proof.
  intros Hp [Ht Hw]. split.
  - intros t Hin. apply Ht. apply Permutation_sym in Hp.
    apply (Permutation_in t Hp Hin).
  - intros w Hin. rewrite <- (Hw w Hin). apply expr_value_perm.
    apply Permutation_map, Permutation_sym, Hp.
Qed.

(** The objective only depends on which teams are available. *)
Lemma objective_terms_same (df : DataFrame) (rem : list Z)
    (avail avail' : list string) :
  (forall t, In t avail <-> In t avail') ->
  objective_terms df rem avail (x_keys rem avail) =
  objective_terms df rem avail' (x_keys rem avail').
Proof.
  intros H.
  assert (Hin : forall t, in_teams t avail = in_teams t avail').
  { intros t. apply bool_eq_iff. rewrite !in_teams_In. apply H. }
  unfold objective_terms. apply flat_map_ext. intros row.
  rewrite !in_x_keys, !Hin. reflexivity.
Qed.

Lemma is_optimal_perm (df : DataFrame) (rem : list Z)
    (avail avail' : list string) (s : Solution) :
  Permutation avail avail' ->
  is_optimal (build_problem df rem avail) s ->
  is_optimal (build_problem df rem avail') s.
Proof.
  intros Hp [Hf Hbest].
  assert (Ho : objective (build_problem df rem avail') =
               objective (build_problem df rem avail)).
  { simpl. symmetry. apply objective_terms_same. intros t. split.
    - apply Permutation_in, Hp.
    - apply Permutation_in, Permutation_sym, Hp. }
  split.
  - apply feasible_build_iff. apply (assignment_ok_perm rem avail avail' s Hp).
    apply feasible_build_iff in Hf. exact Hf.
  - intros s' Hs'. rewrite Ho. apply Hbest.
    apply feasible_build_iff.
    apply (assignment_ok_perm rem avail' avail s' (Permutation_sym Hp)).
    apply feasible_build_iff in Hs'. exact Hs'.
Qed.

(** ** The selected keys do not depend on the order of the teams *)

Lemma filter_map_swap {A B} (f : B -> bool) (g : A -> B) (l : list A) :
  filter f (map g l) = map g (filter (fun a => f (g a)) l).
Proof.
  induction l as [| a r IH]; simpl; [reflexivity |].
  destruct (f (g a)); simpl; rewrite IH; reflexivity.
Qed.

Lemma Permutation_filter {A} (f : A -> bool) (l l' : list A) :
  Permutation l l' -> Permutation (filter f l) (filter f l').
Proof.
  intros H. induction H; simpl.
  - constructor.
  - destruct (f x); [constructor |]; assumption.
  - destruct (f x), (f y); try constructor; apply Permutation_refl.
  - eapply Permutation_trans; eassumption.
Qed.

Lemma flat_map_agree {A B} (f g : A -> list B) (l : list A) :
  (forall a, In a l -> f a = g a) -> flat_map f l = flat_map g l.
Proof.
  induction l as [| a r IH]; simpl; intros H; [reflexivity |].
  rewrite (H a (or_introl eq_refl)), IH; [reflexivity |].
  intros b Hb. apply H. right. assumption.
Qed.

Lemma selected_keys_perm (rem : list Z) (avail avail' : list string)
    (s : Solution) :
  Permutation avail avail' ->
  assignment_ok rem avail s ->
  filter s (x_keys rem avail) = filter s (x_keys rem avail').
Proof.
  intros Hp [_ Hw]. unfold x_keys. rewrite !filter_flat_map.
  apply flat_map_agree. intros w Hin. rewrite !filter_map_swap. f_equal.
  specialize (Hw w Hin). rewrite expr_value_length, filter_map_swap in Hw.
  rewrite List.length_map in Hw.
  pose proof (Permutation_filter (fun t => s (w, t)) avail avail' Hp) as Hpf.
  destruct (filter (fun t => s (w, t)) avail) as [| t [| t' r]];
    simpl in Hw; try lia.
  symmetry. apply Permutation_length_1_inv. exact Hpf.
Qed.

(** ** One run of [optimize_survivor_pool] *)

Lemma weeks_of_nil (df : DataFrame) : weeks_of df = [] <-> df = [].
Proof.
  unfold weeks_of. destruct df; simpl; split; intros H;
    try reflexivity; discriminate.
Qed.

Lemma optimize_empty (rt : Runtime) (cw : Z) (sel : list string) (dur : Z) :
  optimize_survivor_pool rt [] cw sel dur = ([], Raise ValueError).
Proof. reflexivity. Qed.

Lemma optimize_unfold (rt : Runtime) (df : DataFrame) (cw : Z)
    (sel : list string) (dur : Z) :
  df <> [] ->
  optimize_survivor_pool rt df cw sel dur =
  ((if is_LpStatusOptimal (fst (prob_solve rt (runtime_problem rt df cw sel dur)))
    then []
    else [not_optimal_message
            (fst (prob_solve rt (runtime_problem rt df cw sel dur)))]),
   mapM (entry df)
     (filter (snd (prob_solve rt (runtime_problem rt df cw sel dur)))
        (x_keys (horizon df cw dur) (runtime_available rt df sel)))).
Proof.
  intros Hne. unfold optimize_survivor_pool, runtime_problem, horizon, end_week_of.
  destruct (py_max (weeks_of df)) as [m | e] eqn:Em.
  - fold (runtime_available rt df sel).
    destruct (prob_solve rt _) as [status value]. simpl fst. simpl snd.
    rewrite all_metrics_filter. reflexivity.
  - exfalso. apply Hne, weeks_of_nil.
    destruct (weeks_of df); [reflexivity | discriminate].
Qed.

Lemma available_teams_In (teams sel : list string) (t : string) :
  In t (available_teams_of teams sel) <-> In t teams /\ ~ In t sel.
Proof.
  unfold available_teams_of. rewrite filter_In, negb_true_iff.
  pose proof (in_teams_In t sel) as H.
  destruct (in_teams t sel); intuition congruence.
Qed.

Lemma runtime_available_perm (rt : Runtime) (df : DataFrame) (sel : list string) :
  set_list_ok (py_set_list rt) ->
  Permutation (runtime_available rt df sel) (canonical_available df sel).
Proof.
  intros Hset. destruct (Hset (team_columns df)) as [Hnd Hin].
  unfold runtime_available, canonical_available.
  apply NoDup_Permutation.
  - apply NoDup_filter, Hnd.
  - apply NoDup_filter, NoDup_nodup.
  - intros t. rewrite !available_teams_In, Hin, nodup_In. tauto.
Qed.

Lemma feasible_perm (df : DataFrame) (rem : list Z)
    (avail avail' : list string) (s : Solution) :
  Permutation avail avail' ->
  feasible (build_problem df rem avail) s ->
  feasible (build_problem df rem avail') s.
Proof.
  intros Hp Hf. apply feasible_build_iff.
  apply (assignment_ok_perm rem avail avail' s Hp).
  apply feasible_build_iff in Hf. exact Hf.
Qed.

(** When the problem is feasible, a run prints nothing and returns the
    entries of the keys selected by some optimum of the canonical problem. *)
Lemma optimize_optimal (rt : Runtime) (df : DataFrame) (cw : Z)
    (sel : list string) (dur : Z) :
  runtime_ok rt -> df <> [] ->
  (exists s, feasible (canonical_problem df cw sel dur) s) ->
  exists value,
    is_optimal (canonical_problem df cw sel dur) value /\
    optimize_survivor_pool rt df cw sel dur =
    ([], mapM (entry df)
           (filter value
              (x_keys (horizon df cw dur) (canonical_available df sel)))).
Proof.
  intros [Hset Hsolve] Hne [s0 Hs0].
  pose proof (runtime_available_perm rt df sel Hset) as Hp.
  destruct (Hsolve (runtime_problem rt df cw sel dur)) as [Hyes _].
  destruct Hyes as [Hst Hopt].
  { exists s0. unfold runtime_problem.
    apply (feasible_perm df _ _ _ s0 (Permutation_sym Hp)). exact Hs0. }
  exists (snd (prob_solve rt (runtime_problem rt df cw sel dur))). split.
  - apply (is_optimal_perm df _ _ _ _ Hp). exact Hopt.
  - rewrite (optimize_unfold rt df cw sel dur Hne), Hst. simpl. f_equal. f_equal.
    apply selected_keys_perm; [exact Hp |].
    apply feasible_build_iff with (df := df). exact (proj1 Hopt).
Qed.

Lemma keys_in_problem_vars (df : DataFrame) (rem : list Z)
    (avail : list string) (k : LpVariable) :
  In k (x_keys rem avail) -> In k (problem_vars (build_problem df rem avail)).
Proof.
  destruct k as [w t]. rewrite x_keys_In. intros [Hw Ht].
  apply problem_vars_constraint
    with (c := week_constraint avail (x_keys rem avail) w).
  - simpl. apply in_or_app. right. apply in_map, Hw.
  - rewrite week_constraint_expr by assumption.
    apply in_map_iff. exists t. split; [reflexivity | assumption].
Qed.

Lemma filter_agree {A} (f g : A -> bool) (l : list A) :
  (forall a, In a l -> f a = g a) -> filter f l = filter g l.
Proof.
  induction l as [| a r IH]; simpl; intros H; [reflexivity |].
  rewrite (H a (or_introl eq_refl)), IH; [reflexivity |].
  intros b Hb. apply H. right. assumption.
Qed.

(** With a single optimum, every run returns the entries of its keys. *)
Lemma optimize_single_optimum (rt : Runtime) (df : DataFrame) (cw : Z)
    (sel : list string) (dur : Z) (S0 : list LpVariable) :
  runtime_ok rt -> df <> [] ->
  optima (canonical_problem df cw sel dur) = [S0] ->
  optimize_survivor_pool rt df cw sel dur =
  ([], mapM (entry df)
         (filter (solution_of S0)
            (x_keys (horizon df cw dur) (canonical_available df sel)))).
Proof.
  intros Hrt Hne Hone.
  destruct (optimize_optimal rt df cw sel dur Hrt Hne) as [value [Hopt Hrun]].
  { apply (optima_feasible _ S0). rewrite Hone. left. reflexivity. }
  rewrite Hrun. f_equal. f_equal.
  pose proof (optimal_in_optima _ value Hopt) as Hin.
  rewrite Hone in Hin. destruct Hin as [Heq | []].
  apply filter_agree. intros k Hk. rewrite Heq.
  symmetry. apply solution_of_filter.
  apply keys_in_problem_vars. exact Hk.
Qed.

(** ** Entries of a returned plan *)

Lemma iloc0_filter_find {A} (f : A -> bool) (l : list A) :
  iloc0 (filter f l) =
  match find f l with
  | Some a => Return a
  | None => Raise IndexError
  end.
Proof.
  induction l as [| a r IH]; simpl; [reflexivity |].
  destruct (f a); [reflexivity | exact IH].
Qed.

Lemma entry_Return (df : DataFrame) (k : LpVariable) (m : Metric) :
  entry df k = Return m ->
  exists g, find (plays (fst k) (snd k)) df = Some g /\
            m = make_metric (fst k) (snd k) g.
Proof.
  unfold entry. rewrite iloc0_filter_find.
  destruct (find (plays (fst k) (snd k)) df) as [g |]; simpl; intros H.
  - exists g. split; [reflexivity | congruence].
  - discriminate.
Qed.

Lemma entry_Raise (df : DataFrame) (k : LpVariable) (e : exn) :
  entry df k = Raise e ->
  e = IndexError /\ forall row, In row df -> plays (fst k) (snd k) row = false.
Proof.
  unfold entry. rewrite iloc0_filter_find.
  destruct (find (plays (fst k) (snd k)) df) as [g |] eqn:E; simpl; intros H.
  - discriminate.
  - split; [congruence |]. intros row. apply (find_none _ _ E).
Qed.

(** Every entry of a returned plan comes from a key of the horizon and of
    the available teams whose variable the solver left at 1. *)
Lemma plan_entry_key (rt : Runtime) (df : DataFrame) (cw : Z)
    (sel : list string) (dur : Z) (plan : list Metric) (m : Metric) :
  outcome (optimize_survivor_pool rt df cw sel dur) = Return plan ->
  In m plan ->
  exists w t,
    In w (horizon df cw dur) /\ In t (runtime_available rt df sel) /\
    snd (prob_solve rt (runtime_problem rt df cw sel dur)) (w, t) = true /\
    entry df (w, t) = Return m.
Proof.
  intros Hrun Hm. destruct df as [| row df'] eqn:Edf; [discriminate |].
  rewrite <- Edf in *.
  rewrite optimize_unfold in Hrun by (rewrite Edf; discriminate).
  unfold outcome in Hrun. simpl snd in Hrun.
  destruct (mapM_In _ _ _ _ Hrun Hm) as [[w t] [Hk He]].
  apply filter_In in Hk. destruct Hk as [Hk Hv].
  apply x_keys_In in Hk. exists w, t. tauto.
Qed.

Lemma horizon_In (df : DataFrame) (cw dur w : Z) :
  In w (horizon df cw dur) ->
  In w (map Week df) /\ cw <= w <= end_week_of df cw dur.
Proof.
  unfold horizon, remaining_weeks_of. rewrite filter_In.
  unfold weeks_of at 1. rewrite unique_In, andb_true_iff, !Z.leb_le. tauto.
Qed.

Lemma end_week_of_spec (df : DataFrame) (cw dur : Z) :
  df <> [] ->
  exists max_week,
    py_max (weeks_of df) = Return max_week /\
    end_week_of df cw dur = Z.min (cw + dur - 1) max_week.
Proof.
  intros Hne. unfold end_week_of.
  destruct (py_max (weeks_of df)) as [m | e] eqn:E.
  - exists m. split; reflexivity.
  - exfalso. apply Hne, weeks_of_nil.
    destruct (weeks_of df); [reflexivity | discriminate].
Qed.

Lemma make_metric_fields (w : Z) (t : string) (g : Row) :
  m_Week (make_metric w t g) = w /\ Selected_Team (make_metric w t g) = t.
Proof. split; reflexivity. Qed.

(** ** Digits of [format_4f] *)

Lemma digit_is_digit (n : Z) : is_digit (digit (n mod 10)) = true.
Proof.
  assert (H : 0 <= n mod 10 < 10) by (apply Z.mod_pos_bound; lia).
  assert (C : n mod 10 = 0 \/ n mod 10 = 1 \/ n mod 10 = 2 \/ n mod 10 = 3 \/
              n mod 10 = 4 \/ n mod 10 = 5 \/ n mod 10 = 6 \/ n mod 10 = 7 \/
              n mod 10 = 8 \/ n mod 10 = 9) by lia.
  destruct C as [E|[E|[E|[E|[E|[E|[E|[E|[E|E]]]]]]]]]; rewrite E; reflexivity.
Qed.

Lemma no_point_app (a b : string) :
  no_point (a ++ b) = no_point a && no_point b.
Proof.
  induction a as [| c r IH]; simpl; [reflexivity |].
  rewrite IH, andb_assoc. reflexivity.
Qed.

Lemma no_point_uint (d : Decimal.uint) :
  no_point (NilEmpty.string_of_uint d) = true.
Proof. induction d; simpl; try assumption; reflexivity. Qed.

Lemma no_point_natural (n : Z) : no_point (natural_string n) = true.
Proof.
  unfold natural_string, NilZero.string_of_uint.
  destruct (N.to_uint (Z.to_N n)); try apply no_point_uint; reflexivity.
Qed.

Lemma string_app_assoc (a b c : string) :
  ((a ++ b) ++ c = a ++ (b ++ c))%string.
Proof.
  induction a as [| x r IH]; simpl; [reflexivity | rewrite IH; reflexivity].
Qed.

Lemma format_4f_four_decimals (p : Q) : four_decimals (format_4f p).
Proof.
  unfold format_4f, fraction_digits.
  set (scaled := round_half_even _).
  set (sign := if Qnum p <? 0 then "-"%string else ""%string).
  exists (sign ++ natural_string (scaled / 10000))%string,
    (digit (scaled / 1000 mod 10)), (digit (scaled / 100 mod 10)),
    (digit (scaled / 10 mod 10)), (digit (scaled mod 10)).
  split; [| split; [| repeat split; apply digit_is_digit]].
  - rewrite string_app_assoc. reflexivity.
  - rewrite no_point_app, no_point_natural.
    unfold sign. destruct (Qnum p <? 0); reflexivity.
Qed.

(** ** The number [format_4f] prints *)

Lemma split_point_app (a b : string) :
  no_point a = true -> split_point (a ++ String "." b) = Some (a, b).
Proof.
  induction a as [| c r IH]; simpl; intros H; [reflexivity |].
  apply andb_true_iff in H. destruct H as [Hc Hr].
  apply negb_true_iff in Hc. rewrite Hc, (IH Hr). reflexivity.
Qed.

Lemma natural_string_head (w : Z) :
  exists c r, natural_string w = String c r /\ Ascii.eqb c "-" = false.
Proof.
  unfold natural_string, NilZero.string_of_uint.
  destruct (N.to_uint (Z.to_N w)); simpl; do 2 eexists; split; reflexivity.
Qed.

Lemma read_digits_natural (w : Z) :
  0 <= w -> read_digits (natural_string w) = Some w.
Proof.
  intros Hw. unfold natural_string, read_digits.
  pose proof (DecimalN.Unsigned.of_to (Z.to_N w)) as Hof.
  destruct (N.to_uint (Z.to_N w)) as [| d | d | d | d | d | d | d | d | d | d]
    eqn:E;
    [| cbv [NilZero.string_of_uint]; rewrite NilEmpty.usu; cbn [option_map];
       rewrite Hof, Z2N.id by exact Hw; reflexivity ..].
  simpl. simpl in Hof. f_equal. lia.
Qed.

Lemma fraction_digits_mod (n : Z) :
  fraction_digits n = fraction_digits (n mod 10000).
Proof.
  unfold fraction_digits.
  assert (H1 : n / 1000 mod 10 = n mod 10000 / 1000 mod 10)
    by (Z.div_mod_to_equations; lia).
  assert (H2 : n / 100 mod 10 = n mod 10000 / 100 mod 10)
    by (Z.div_mod_to_equations; lia).
  assert (H3 : n / 10 mod 10 = n mod 10000 / 10 mod 10)
    by (Z.div_mod_to_equations; lia).
  assert (H4 : n mod 10 = n mod 10000 mod 10)
    by (Z.div_mod_to_equations; lia).
  rewrite <- H1, <- H2, <- H3, <- H4. reflexivity.
Qed.

(** Every four-digit fraction reads back as the number it was printed
    from. *)
Lemma read_digits_fraction_all :
  forallb (fun k =>
    match read_digits (fraction_digits (Z.of_nat k)) with
    | Some v => v =? Z.of_nat k
    | None => false
    end) (seq 0 (Z.to_nat 10000)) = true.
Proof. vm_compute. reflexivity. Qed.

Lemma read_digits_fraction (n : Z) :
  0 <= n -> read_digits (fraction_digits n) = Some (n mod 10000).
Proof.
  intros Hn. rewrite fraction_digits_mod.
  assert (Hb : 0 <= n mod 10000 < 10000) by (apply Z.mod_pos_bound; lia).
  pose proof read_digits_fraction_all as Hall.
  rewrite forallb_forall in Hall.
  specialize (Hall (Z.to_nat (n mod 10000))).
  rewrite Z2Nat.id in Hall by lia.
  destruct (read_digits (fraction_digits (n mod 10000))) as [v |].
  - f_equal. apply Z.eqb_eq. apply Hall. apply in_seq. lia.
  - discriminate Hall. apply in_seq. lia.
Qed.

Lemma read_unsigned_printed (n : Z) :
  0 <= n ->
  read_unsigned_4f
    (natural_string (n / 10000) ++ String "." (fraction_digits n)) = Some n.
Proof.
  intros Hn. unfold read_unsigned_4f.
  rewrite (split_point_app _ _ (no_point_natural (n / 10000))).
  assert (Hlen : Nat.eqb (String.length (fraction_digits n)) 4 = true)
    by reflexivity.
  rewrite Hlen.
  destruct (natural_string_head (n / 10000)) as [c [r [Hs _]]].
  assert (Hne : String.eqb (natural_string (n / 10000)) "" = false)
    by (rewrite Hs; reflexivity).
  rewrite Hne. simpl andb. cbv iota.
  rewrite read_digits_natural by (apply Z.div_pos; lia).
  rewrite read_digits_fraction by exact Hn.
  f_equal. Z.div_mod_to_equations. lia.
Qed.

Lemma round_half_even_nearest (m : Z) (b : positive) :
  0 <= m ->
  0 <= round_half_even (m # b) /\
  2 * Z.abs (round_half_even (m # b) * Zpos b - m) <= Zpos b /\
  (2 * Z.abs (round_half_even (m # b) * Zpos b - m) = Zpos b ->
   Z.even (round_half_even (m # b)) = true).
Proof.
  intros Hm. unfold round_half_even. cbn [Qnum Qden].
  pose proof (Z.div_mod m (Zpos b)) as Hdm.
  pose proof (Z.mod_pos_bound m (Zpos b)) as Hr.
  assert (Hf : 0 <= m / Zpos b) by (apply Z.div_pos; lia).
  set (f := m / Zpos b) in *. set (r := m mod Zpos b) in *.
  assert (Em : m = Zpos b * f + r) by (apply Hdm; lia).
  assert (Hr' : 0 <= r < Zpos b) by (apply Hr; lia).
  assert (E1 : f * Zpos b - m = - r) by lia.
  assert (E2 : (f + 1) * Zpos b - m = Zpos b - r) by lia.
  destruct (2 * r <? Zpos b) eqn:C1.
  - apply Z.ltb_lt in C1. rewrite E1. repeat split; lia.
  - apply Z.ltb_ge in C1. destruct (Zpos b <? 2 * r) eqn:C2.
    + apply Z.ltb_lt in C2. rewrite E2. repeat split; lia.
    + apply Z.ltb_ge in C2. destruct (Z.even f) eqn:Ev.
      * rewrite E1. repeat split; try lia. intros _. exact Ev.
      * rewrite E2. repeat split; try lia. intros _.
        rewrite Z.add_1_r, Z.even_succ, <- Z.negb_even, Ev. reflexivity.
Qed.

Lemma read_4f_unsigned (c : ascii) (r : string) :
  Ascii.eqb c "-" = false ->
  read_4f (String c r) =
  option_map (fun n => n # 10000) (read_unsigned_4f (String c r)).
Proof. intros H. unfold read_4f. rewrite H. reflexivity. Qed.

(** The numeral printed for [p] denotes [p] rounded to four decimal
    places, ties to even. *)
Lemma format_4f_reads (p : Q) :
  exists v, read_4f (format_4f p) = Some v /\ rounded_4 p v.
Proof.
  destruct p as [a b]. unfold format_4f. cbn [Qnum Qden].
  destruct (round_half_even_nearest (Z.abs a * 10000) b) as [H0 [Hle Htie]];
    [lia |].
  set (scaled := round_half_even (Z.abs a * 10000 # b)) in *.
  pose proof (read_unsigned_printed scaled H0) as Hread.
  destruct (a <? 0) eqn:Ea.
  - apply Z.ltb_lt in Ea. exists ((- scaled) # 10000). split.
    + change (("-" ++ natural_string (scaled / 10000) ++ "." ++
               fraction_digits scaled)%string)
        with (String "-" (natural_string (scaled / 10000) ++
                          String "." (fraction_digits scaled))).
      unfold read_4f. rewrite Ascii.eqb_refl, Hread. reflexivity.
    + exists (- scaled). split; [reflexivity |].
      unfold Qabs, Qminus, Qplus, Qopp, Qle, Qeq. cbn [Qnum Qden].
      rewrite !Pos2Z.inj_mul. split.
      * nia.
      * intros Heq. rewrite Z.even_opp. apply Htie. nia.
  - apply Z.ltb_ge in Ea. exists (scaled # 10000). split.
    + change ((EmptyString ++ natural_string (scaled / 10000) ++ "." ++
               fraction_digits scaled)%string)
        with (natural_string (scaled / 10000) ++
              String "." (fraction_digits scaled))%string.
      destruct (natural_string_head (scaled / 10000)) as [c [r [Hs Hc]]].
      rewrite Hs in *. simpl append in *.
      rewrite (read_4f_unsigned c _ Hc), Hread. reflexivity.
    + exists scaled. split; [reflexivity |].
      unfold Qabs, Qminus, Qplus, Qopp, Qle, Qeq. cbn [Qnum Qden].
      rewrite !Pos2Z.inj_mul. split.
      * nia.
      * intros Heq. apply Htie. nia.
Qed.

Lemma format_4f_prints (p : Q) : prints_4f p (format_4f p).
Proof.
  split; [apply format_4f_four_decimals | apply format_4f_reads].
Qed.

(** * The claims *)

(** C5. No team of [selected_teams] (the exclusion set) is the selected team
    of an entry of the returned plan, whatever the runtime does. *)
Theorem exclusion_respected (rt : Runtime) (df : DataFrame) (cw : Z)
    (sel : list string) (dur : Z) (plan : list Metric) (m : Metric) :
  outcome (optimize_survivor_pool rt df cw sel dur) = Return plan ->
  In m plan ->
  ~ In (Selected_Team m) sel.
Proof.
  intros Hrun Hm.
  destruct (plan_entry_key rt df cw sel dur plan m Hrun Hm)
    as [w [t [_ [Ht [_ He]]]]].
  apply entry_Return in He. destruct He as [g [_ ->]]. simpl.
  unfold runtime_available in Ht. apply available_teams_In in Ht. tauto.
Qed.

Lemma exclusion_respected_witness :
  outcome (optimize_survivor_pool first_runtime excluded_opponent_table
             1 ["B"%string] 1) = Return [C_week1] /\
  In C_week1 [C_week1] /\
  ~ In (Selected_Team C_week1) ["B"%string].
Proof.
  assert (Hrun : outcome (optimize_survivor_pool first_runtime
                            excluded_opponent_table 1 ["B"%string] 1)
                 = Return [C_week1]) by (vm_compute; reflexivity).
  assert (Hm : In C_week1 [C_week1]) by (left; reflexivity).
  split; [exact Hrun | split; [exact Hm |]].
  exact (exclusion_respected first_runtime excluded_opponent_table 1
           ["B"%string] 1 [C_week1] C_week1 Hrun Hm).
Defined.

(** C6. Every entry of the returned plan is for a week of the window
    [current_week, current_week + duration - 1] that is also at most the
    largest week of the table; a week outside that window never appears. *)
Theorem horizon_clipping (rt : Runtime) (df : DataFrame) (cw : Z)
    (sel : list string) (dur : Z) (plan : list Metric) (m : Metric) :
  outcome (optimize_survivor_pool rt df cw sel dur) = Return plan ->
  In m plan ->
  exists max_week,
    py_max (weeks_of df) = Return max_week /\
    cw <= m_Week m <= cw + dur - 1 /\
    m_Week m <= max_week /\
    In (m_Week m) (map Week df).
Proof.
  intros Hrun Hm.
  destruct (plan_entry_key rt df cw sel dur plan m Hrun Hm)
    as [w [t [Hw [_ [_ He]]]]].
  apply entry_Return in He. destruct He as [g [_ ->]]. simpl.
  apply horizon_In in Hw. destruct Hw as [Hin Hb].
  destruct (end_week_of_spec df cw dur) as [mx [Hmx Hend]].
  { intros E. rewrite E in Hrun. discriminate. }
  exists mx. rewrite Hend in Hb. repeat split; try lia; assumption.
Qed.

Lemma horizon_clipping_witness :
  outcome (optimize_survivor_pool first_runtime two_week_table 1 [] 1)
    = Return [A_week1] /\
  In A_week1 [A_week1] /\
  exists max_week,
    py_max (weeks_of two_week_table) = Return max_week /\
    1 <= m_Week A_week1 <= 1 + 1 - 1 /\
    m_Week A_week1 <= max_week /\
    In (m_Week A_week1) (map Week two_week_table).
Proof.
  assert (Hrun : outcome (optimize_survivor_pool first_runtime
                            two_week_table 1 [] 1) = Return [A_week1])
    by (vm_compute; reflexivity).
  assert (Hm : In A_week1 [A_week1]) by (left; reflexivity).
  split; [exact Hrun | split; [exact Hm |]].
  exact (horizon_clipping first_runtime two_week_table 1 [] 1
           [A_week1] A_week1 Hrun Hm).
Defined.

Lemma plays_cases (w : Z) (t : string) (g : Row) :
  plays w t g = true ->
  Week g = w /\ (Home_Team g = t \/ Away_Team g = t).
Proof.
  unfold plays.
  rewrite orb_true_iff, !andb_true_iff, Z.eqb_eq, !String.eqb_eq. tauto.
Qed.



(** The entry of the scenario, as printed. *)
Example A_week1_reason :
  Reason A_week1 = "Selected A due to higher probability of 0.9000 compared to opponent's probability of 0.5000"%string.
Proof. reflexivity. Qed.

(** C10. The rationale of every entry is the fixed sentence that calls the
    selected team's probability the higher one, with the two probabilities
    written as numerals of four decimal places that denote them rounded to
    four places; on [underdog_table] every run selects B in week 1 at 0.1
    against A's 0.9 and still prints that B's is higher. *)
Theorem reason_template (rt : Runtime) :
  runtime_ok rt ->
  (forall df cw sel dur plan m,
     outcome (optimize_survivor_pool rt df cw sel dur) = Return plan ->
     In m plan ->
     exists p q,
       Reason m =
         ("Selected " ++ Selected_Team m ++
          " due to higher probability of " ++ p ++
          " compared to opponent's probability of " ++ q)%string /\
       prints_4f (Selected_Team_Probability m) p /\
       prints_4f (Opponent_Team_Probability m) q) /\
  (exists plan m,
     outcome (optimize_survivor_pool rt underdog_table 1 [] 2) = Return plan /\
     In m plan /\
     (Selected_Team_Probability m < Opponent_Team_Probability m)%Q /\
     Reason m = "Selected B due to higher probability of 0.1000 compared to opponent's probability of 0.9000"%string).
Proof.
  intros Hrt. split.
  - intros df cw sel dur plan m Hrun Hm.
    destruct (plan_entry_key rt df cw sel dur plan m Hrun Hm)
      as [w [t [_ [_ [_ He]]]]].
    apply entry_Return in He. destruct He as [g [_ ->]].
    exists (format_4f (Selected_Team_Probability (make_metric w t g))),
      (format_4f (Opponent_Team_Probability (make_metric w t g))).
    split; [reflexivity | split; apply format_4f_prints].
  - pose (m := make_metric 1 "B" (mkRow 1 "A" (9 # 10) "B" (1 # 10))).
    exists [m; make_metric 2 "A" (mkRow 2 "A" (95 # 100) "B" (5 # 100))], m.
    split; [| split; [left; reflexivity | split; reflexivity]].
    rewrite (optimize_single_optimum rt underdog_table 1 [] 2
               [(1, "B"%string); (2, "A"%string)] Hrt).
    + vm_compute. reflexivity.
    + discriminate.
    + vm_compute. reflexivity.
Qed.

Lemma reason_template_witness :
  runtime_ok first_runtime /\
  (forall df cw sel dur plan m,
     outcome (optimize_survivor_pool first_runtime df cw sel dur)
       = Return plan ->
     In m plan ->
     exists p q,
       Reason m =
         ("Selected " ++ Selected_Team m ++
          " due to higher probability of " ++ p ++
          " compared to opponent's probability of " ++ q)%string /\
       prints_4f (Selected_Team_Probability m) p /\
       prints_4f (Opponent_Team_Probability m) q) /\
  (exists plan m,
     outcome (optimize_survivor_pool first_runtime underdog_table 1 [] 2)
       = Return plan /\
     In m plan /\
     (Selected_Team_Probability m < Opponent_Team_Probability m)%Q /\
     Reason m = "Selected B due to higher probability of 0.1000 compared to opponent's probability of 0.9000"%string).
Proof.
  split; [exact first_runtime_ok |].
  exact (reason_template first_runtime first_runtime_ok).
Defined.

(** ** Empty and inverted horizons *)

Lemma horizon_empty (df : DataFrame) (cw dur : Z) :
  end_week_of df cw dur < cw -> horizon df cw dur = [].
Proof.
  intros H. unfold horizon, remaining_weeks_of.
  induction (weeks_of df) as [| w r IH]; simpl; [reflexivity |].
  destruct (cw <=? w) eqn:E1; simpl; [| exact IH].
  destruct (w <=? end_week_of df cw dur) eqn:E2; [| exact IH].
  apply Z.leb_le in E1, E2. lia.
Qed.

Lemma end_week_nonpositive_duration (df : DataFrame) (cw dur : Z) :
  df <> [] -> dur <= 0 -> end_week_of df cw dur < cw.
Proof.
  intros Hne Hd. destruct (end_week_of_spec df cw dur Hne) as [mx [_ ->]]. lia.
Qed.

Lemma empty_horizon_feasible (df : DataFrame) (avail : list string)
    (s : Solution) :
  feasible (build_problem df [] avail) s.
Proof.
  apply feasible_build_iff. split.
  - intros t _. simpl. lia.
  - intros w [].
Qed.

(** C7 (amended). With a non-positive duration, or a current week after the
    clipped end week, nothing is raised: the run prints nothing and returns
    the empty plan. *)
Theorem empty_horizon_returns_empty_plan (rt : Runtime) (df : DataFrame)
    (cw : Z) (sel : list string) (dur : Z) :
  runtime_ok rt -> df <> [] ->
  dur <= 0 \/ end_week_of df cw dur < cw ->
  optimize_survivor_pool rt df cw sel dur = ([], Return []).
Proof.
  intros [_ Hsolve] Hne Hinv.
  assert (Hh : horizon df cw dur = []).
  { apply horizon_empty. destruct Hinv as [Hd | Hlt]; [| exact Hlt].
    apply end_week_nonpositive_duration; assumption. }
  rewrite (optimize_unfold rt df cw sel dur Hne).
  destruct (Hsolve (runtime_problem rt df cw sel dur)) as [Hyes _].
  destruct Hyes as [Hst _].
  { exists (fun _ => false). unfold runtime_problem. rewrite Hh.
    apply empty_horizon_feasible. }
  rewrite Hst, Hh. reflexivity.
Qed.

Lemma empty_horizon_returns_empty_plan_witness :
  runtime_ok first_runtime /\ two_week_table <> [] /\
  (0 <= 0 \/ end_week_of two_week_table 1 0 < 1) /\
  optimize_survivor_pool first_runtime two_week_table 1 [] 0 = ([], Return []).
Proof.
  assert (Hne : two_week_table <> []) by discriminate.
  assert (Hinv : 0 <= 0 \/ end_week_of two_week_table 1 0 < 1)
    by (left; lia).
  split; [exact first_runtime_ok | split; [exact Hne | split; [exact Hinv |]]].
  exact (empty_horizon_returns_empty_plan first_runtime two_week_table 1 [] 0
           first_runtime_ok Hne Hinv).
Defined.

(** C7, as claimed, fails: a zero or negative duration, and a current week
    after the last week of the table, each return the empty plan. *)
Lemma invalid_horizon_not_rejected :
  optimize_survivor_pool first_runtime two_week_table 1 [] 0
    = ([], Return []) /\
  optimize_survivor_pool first_runtime two_week_table 1 [] (-3)
    = ([], Return []) /\
  optimize_survivor_pool first_runtime two_week_table 5 [] 2
    = ([], Return []).
Proof. repeat split; vm_compute; reflexivity. Qed.

(** C8 (amended). A team in two games of one week does not stop the run:
    every entry of a returned plan is built from the first row of the table,
    in table order, that has its team in its week, however many such rows
    follow. *)
Theorem conflicting_events_not_detected (rt : Runtime) (df : DataFrame)
    (cw : Z) (sel : list string) (dur : Z) (plan : list Metric) (m : Metric) :
  outcome (optimize_survivor_pool rt df cw sel dur) = Return plan ->
  In m plan ->
  exists game,
    find (plays (m_Week m) (Selected_Team m)) df = Some game /\
    m = make_metric (m_Week m) (Selected_Team m) game.
Proof.
  intros Hrun Hm.
  destruct (plan_entry_key rt df cw sel dur plan m Hrun Hm)
    as [w [t [_ [_ [_ He]]]]].
  apply entry_Return in He. destruct He as [g [Hfind ->]].
  exists g. split; [exact Hfind | reflexivity].
Qed.

Lemma conflicting_events_not_detected_witness :
  outcome (optimize_survivor_pool first_runtime conflict_table 1 [] 1)
    = Return [A_first_game] /\
  In A_first_game [A_first_game] /\
  exists game,
    find (plays (m_Week A_first_game) (Selected_Team A_first_game))
      conflict_table = Some game /\
    A_first_game =
      make_metric (m_Week A_first_game) (Selected_Team A_first_game) game.
Proof.
  assert (Hrun : outcome (optimize_survivor_pool first_runtime
                            conflict_table 1 [] 1) = Return [A_first_game])
    by (vm_compute; reflexivity).
  assert (Hm : In A_first_game [A_first_game]) by (left; reflexivity).
  split; [exact Hrun | split; [exact Hm |]].
  exact (conflicting_events_not_detected first_runtime conflict_table 1 [] 1
           [A_first_game] A_first_game Hrun Hm).
Defined.

(** C8, as claimed, fails: A is in two games of week 1, no error is raised,
    both games add a term for A to the objective, and the plan reports A from
    the first of them. *)
Lemma conflicting_events_accepted :
  optimize_survivor_pool first_runtime conflict_table 1 [] 1
  = ([], Return [A_first_game]) /\
  List.length (filter (plays 1 "A") conflict_table) = 2%nat /\
  objective (runtime_problem first_runtime conflict_table 1 [] 1) =
    [(6 # 10, (1, "A"%string)); (3 # 10, (1, "B"%string));
     (7 # 10, (1, "A"%string)); (2 # 10, (1, "C"%string))].
Proof. repeat split; vm_compute; reflexivity. Qed.

(** ** Enough teams make the problem feasible *)

Lemma filter_none {A} (f : A -> bool) (l : list A) :
  (forall a, In a l -> f a = false) -> filter f l = [].
Proof.
  induction l as [| a r IH]; simpl; intros H; [reflexivity |].
  rewrite (H a (or_introl eq_refl)). apply IH.
  intros b Hb. apply H. right. assumption.
Qed.

Lemma filter_at_most_one {A} (f : A -> bool) (l : list A) :
  NoDup l ->
  (forall a b, In a l -> In b l -> f a = true -> f b = true -> a = b) ->
  (List.length (filter f l) <= 1)%nat.
Proof.
  intros Hnd. induction Hnd as [| a r Hnotin Hnd IH]; simpl; intros Huniq.
  - lia.
  - destruct (f a) eqn:Ea.
    + rewrite filter_none; [simpl; lia |].
      intros b Hb. destruct (f b) eqn:Eb; [| reflexivity].
      exfalso. apply Hnotin.
      rewrite (Huniq a b (or_introl eq_refl) (or_intror Hb) Ea Eb). exact Hb.
    + apply IH. intros x y Hx Hy. apply Huniq; right; assumption.
Qed.

Lemma filter_at_least_one {A} (f : A -> bool) (l : list A) (a : A) :
  In a l -> f a = true -> (1 <= List.length (filter f l))%nat.
Proof.
  intros Hin Hf.
  assert (H : In a (filter f l)) by (apply filter_In; split; assumption).
  destruct (filter f l); [contradiction | simpl; lia].
Qed.

Lemma combine_functional {A B} (l : list A) (l' : list B) (a : A) (b b' : B) :
  NoDup l -> In (a, b) (combine l l') -> In (a, b') (combine l l') -> b = b'.
Proof.
  intros Hnd. revert l'.
  induction Hnd as [| x r Hnotin Hnd IH]; intros l'; simpl; [contradiction |].
  destruct l' as [| y r']; simpl; [contradiction |].
  intros [H1 | H1] [H2 | H2].
  - congruence.
  - inversion H1. subst. exfalso. apply Hnotin. apply (in_combine_l _ _ _ _ H2).
  - inversion H2. subst. exfalso. apply Hnotin. apply (in_combine_l _ _ _ _ H1).
  - apply (IH r' H1 H2).
Qed.

Lemma combine_injective {A B} (l : list A) (l' : list B) (a a' : A) (b : B) :
  NoDup l' -> In (a, b) (combine l l') -> In (a', b) (combine l l') -> a = a'.
Proof.
  intros Hnd. revert l.
  induction Hnd as [| y r' Hnotin Hnd IH]; intros l.
  - destruct l; simpl; contradiction.
  - destruct l as [| x r]; simpl; [contradiction |].
    intros [H1 | H1] [H2 | H2].
    + congruence.
    + inversion H1. subst. exfalso. apply Hnotin.
      apply (in_combine_r _ _ _ _ H2).
    + inversion H2. subst. exfalso. apply Hnotin.
      apply (in_combine_r _ _ _ _ H1).
    + apply (IH r H1 H2).
Qed.

Lemma combine_total {A B} (l : list A) (l' : list B) (a : A) :
  (List.length l <= List.length l')%nat -> In a l ->
  exists b, In (a, b) (combine l l').
Proof.
  revert l'. induction l as [| x r IH]; intros l' Hlen Hin; [contradiction |].
  destruct l' as [| y r']; simpl in Hlen; [lia |].
  destruct Hin as [-> | Hin].
  - exists y. left. reflexivity.
  - destruct (IH r' (proj2 (Nat.succ_le_mono _ _) Hlen) Hin) as [b Hb].
    exists b. right. exact Hb.
Qed.

(** Week [i] of the horizon takes the [i]-th available team. *)
Lemma pairing_assignment_ok (rem : list Z) (avail : list string) :
  NoDup rem -> NoDup avail ->
  (List.length rem <= List.length avail)%nat ->
  assignment_ok rem avail (solution_of (combine rem avail)).
Proof.
  intros Hrem Havail Hlen. split.
  - intros t _.
    rewrite expr_value_length, filter_map_swap, List.length_map.
    apply inj_le with (m := 1%nat).
    apply filter_at_most_one; [exact Hrem |].
    intros a b _ _ Ha Hb. apply solution_of_In in Ha, Hb.
    apply (combine_injective rem avail a b t Havail Ha Hb).
  - intros w Hw.
    rewrite expr_value_length, filter_map_swap, List.length_map.
    destruct (combine_total rem avail w Hlen Hw) as [t Ht].
    assert (Hle : (List.length
                     (filter (fun t0 => solution_of (combine rem avail) (w, t0))
                        avail) <= 1)%nat).
    { apply filter_at_most_one; [exact Havail |].
      intros a b _ _ Ha Hb. apply solution_of_In in Ha, Hb.
      apply (combine_functional rem avail w a b Hrem Ha Hb). }
    assert (Hge : (1 <= List.length
                     (filter (fun t0 => solution_of (combine rem avail) (w, t0))
                        avail))%nat).
    { apply filter_at_least_one with (a := t).
      - apply (in_combine_r _ _ _ _ Ht).
      - apply solution_of_In. exact Ht. }
    lia.
Qed.

Lemma horizon_NoDup (df : DataFrame) (cw dur : Z) : NoDup (horizon df cw dur).
Proof. apply NoDup_filter, unique_NoDup. Qed.

Lemma canonical_available_NoDup (df : DataFrame) (sel : list string) :
  NoDup (canonical_available df sel).
Proof. apply NoDup_filter, NoDup_nodup. Qed.

Lemma enough_teams_feasible (df : DataFrame) (cw : Z) (sel : list string)
    (dur : Z) :
  enough_teams df cw sel dur ->
  exists s, feasible (canonical_problem df cw sel dur) s.
Proof.
  intros Hlen.
  exists (solution_of
            (combine (horizon df cw dur) (canonical_available df sel))).
  apply feasible_build_iff. apply pairing_assignment_ok.
  - apply horizon_NoDup.
  - apply canonical_available_NoDup.
  - exact Hlen.
Qed.

(** ** No team twice *)

Lemma x_keys_NoDup (rem : list Z) (avail : list string) :
  NoDup rem -> NoDup avail -> NoDup (x_keys rem avail).
Proof.
  intros Hrem Havail. unfold x_keys.
  induction Hrem as [| w r Hnotin Hrem IH]; simpl; [constructor |].
  apply NoDup_app.
  - apply Finite.Injective_map_NoDup_in; [| exact Havail].
    intros a b _ _ H. inversion H. reflexivity.
  - exact IH.
  - intros [w' t] H1 H2. apply in_map_iff in H1.
    destruct H1 as [t' [He _]]. inversion He. subst.
    apply (x_keys_In r avail w' t) in H2. tauto.
Qed.

Lemma two_selected_weeks (s : Solution) (rem : list Z) (t : string) (w w' : Z) :
  NoDup rem -> In w rem -> In w' rem -> w <> w' ->
  s (w, t) = true -> s (w', t) = true ->
  2 <= expr_value s (map (fun v => (v, t)) rem).
Proof.
  intros Hnd Hw Hw' Hne Hs Hs'.
  rewrite expr_value_length, filter_map_swap, List.length_map.
  apply inj_le with (n := 2%nat).
  apply (NoDup_incl_length (l := [w; w'])).
  - constructor; [simpl; intuition congruence |].
    constructor; [simpl; tauto | constructor].
  - intros v [<- | [<- | []]]; apply filter_In; split; assumption.
Qed.

Lemma selected_teams_NoDup (rem : list Z) (avail : list string) (s : Solution) :
  NoDup rem -> NoDup avail -> assignment_ok rem avail s ->
  NoDup (map snd (filter s (x_keys rem avail))).
Proof.
  intros Hrem Havail [Hteam _].
  apply Finite.Injective_map_NoDup_in.
  - intros [w t] [w' t'] H1 H2 He. simpl in He. subst t'.
    apply filter_In in H1, H2. destruct H1 as [K1 S1], H2 as [K2 S2].
    apply x_keys_In in K1, K2. destruct K1 as [Hw Ht], K2 as [Hw' _].
    destruct (Z.eq_dec w w') as [-> | Hne]; [reflexivity |].
    pose proof (two_selected_weeks s rem t w w' Hrem Hw Hw' Hne S1 S2).
    specialize (Hteam t Ht). lia.
  - apply NoDup_filter, x_keys_NoDup; assumption.
Qed.

Lemma plan_keys (df : DataFrame) (K : list LpVariable) (plan : list Metric) :
  mapM (entry df) K = Return plan ->
  map m_Week plan = map fst K /\ map Selected_Team plan = map snd K.
Proof.
  intros H. apply mapM_Return in H.
  induction H as [| k m K' plan' He _ IH]; simpl; [split; reflexivity |].
  apply entry_Return in He. destruct He as [g [_ ->]]. simpl.
  destruct IH as [-> ->]. split; reflexivity.
Qed.

(** C4 (amended). With at least as many available teams as weeks in the
    horizon, no team is the selected team of two entries of the returned
    plan. *)
Theorem no_team_twice (rt : Runtime) (df : DataFrame) (cw : Z)
    (sel : list string) (dur : Z) (plan : list Metric) :
  runtime_ok rt ->
  enough_teams df cw sel dur ->
  outcome (optimize_survivor_pool rt df cw sel dur) = Return plan ->
  NoDup (map Selected_Team plan).
Proof.
  intros Hrt Henough Hrun.
  destruct df as [| row df'] eqn:Edf; [discriminate |]. rewrite <- Edf in *.
  destruct (optimize_optimal rt df cw sel dur Hrt) as [value [Hopt Heq]].
  { rewrite Edf. discriminate. }
  { apply enough_teams_feasible, Henough. }
  rewrite Heq in Hrun. unfold outcome in Hrun. simpl snd in Hrun.
  destruct (plan_keys df _ plan Hrun) as [_ ->].
  apply selected_teams_NoDup.
  - apply horizon_NoDup.
  - apply canonical_available_NoDup.
  - apply feasible_build_iff with (df := df). exact (proj1 Hopt).
Qed.

Lemma no_team_twice_witness :
  runtime_ok first_runtime /\
  enough_teams two_week_table 1 [] 2 /\
  outcome (optimize_survivor_pool first_runtime two_week_table 1 [] 2)
    = Return [A_week1; B_week2] /\
  NoDup (map Selected_Team [A_week1; B_week2]).
Proof.
  assert (Hen : enough_teams two_week_table 1 [] 2)
    by (unfold enough_teams; vm_compute; lia).
  assert (Hrun : outcome (optimize_survivor_pool first_runtime
                            two_week_table 1 [] 2)
                 = Return [A_week1; B_week2])
    by (vm_compute; reflexivity).
  split; [exact first_runtime_ok | split; [exact Hen | split; [exact Hrun |]]].
  exact (no_team_twice first_runtime two_week_table 1 [] 2
           [A_week1; B_week2] first_runtime_ok Hen Hrun).
Defined.

(** C4, as claimed, fails: with A excluded, B is the only team for two
    weeks; the solve is infeasible, the run only warns, and the plan it
    builds from the values left in the variables has B in both weeks. *)
Lemma team_repeated_when_infeasible :
  optimize_survivor_pool first_runtime two_week_table 1 ["A"%string] 2 =
    (["Optimization problem did not solve to optimality. Status: Infeasible"%string],
     Return [B_week1; B_week2]) /\
  ~ NoDup (map Selected_Team [B_week1; B_week2]).
Proof.
  split; [vm_compute; reflexivity |].
  intros H. inversion H as [| t l Hnotin _]. apply Hnotin. left. reflexivity.
Qed.

(** ** A week without eligible teams *)

Lemma selected_weeks (rem : list Z) (avail : list string) (s : Solution) :
  assignment_ok rem avail s -> map fst (filter s (x_keys rem avail)) = rem.
Proof.
  intros [_ Hweek]. unfold x_keys. rewrite filter_flat_map. cbv beta.
  induction rem as [| w r IH]; [reflexivity |].
  cbn [flat_map]. rewrite map_app.
  change (w :: r) with ([w] ++ r). f_equal.
  - pose proof (Hweek w (or_introl eq_refl)) as Hw.
    rewrite expr_value_length, filter_map_swap, List.length_map in Hw.
    rewrite filter_map_swap, map_map.
    destruct (filter (fun t => s (w, t)) avail) as [| t [| t' r']];
      simpl in Hw; try lia.
    reflexivity.
  - apply IH. intros v Hv. apply Hweek. right. exact Hv.
Qed.




(** ** Determinism *)

Lemma single_optimum_unique (df : DataFrame) (cw : Z) (sel : list string)
    (dur : Z) (S0 : list LpVariable) :
  optima (canonical_problem df cw sel dur) = [S0] ->
  unique_optimum df cw sel dur.
Proof.
  intros Hone. exists (solution_of S0). split.
  - apply optima_optimal. rewrite Hone. left. reflexivity.
  - intros s Hs k Hk. pose proof (optimal_in_optima _ s Hs) as Hin.
    rewrite Hone in Hin. destruct Hin as [Heq | []].
    rewrite Heq. symmetry. apply solution_of_filter.
    apply keys_in_problem_vars. exact Hk.
Qed.

(** X14. When all optima of the problem select the same keys, two runs on
    the same input print and return the same, whatever order their sets
    iterate in and whichever optimum their exact solvers report. *)
Theorem deterministic_when_unique (rt1 rt2 : Runtime) (df : DataFrame)
    (cw : Z) (sel : list string) (dur : Z) :
  runtime_ok rt1 -> runtime_ok rt2 ->
  unique_optimum df cw sel dur ->
  optimize_survivor_pool rt1 df cw sel dur =
  optimize_survivor_pool rt2 df cw sel dur.
Proof.
  intros H1 H2 [s0 [Hs0 Huniq]].
  destruct df as [| row df'] eqn:Edf; [reflexivity |]. rewrite <- Edf in *.
  assert (Hne : df <> []) by (rewrite Edf; discriminate).
  assert (Hfeas : exists s, feasible (canonical_problem df cw sel dur) s).
  { exists s0. exact (proj1 Hs0). }
  destruct (optimize_optimal rt1 df cw sel dur H1 Hne Hfeas) as [v1 [O1 E1]].
  destruct (optimize_optimal rt2 df cw sel dur H2 Hne Hfeas) as [v2 [O2 E2]].
  rewrite E1, E2. f_equal. f_equal. apply filter_agree.
  intros k Hk. rewrite (Huniq v1 O1 k Hk), (Huniq v2 O2 k Hk). reflexivity.
Qed.

Lemma deterministic_when_unique_witness :
  runtime_ok first_runtime /\ runtime_ok reversed_runtime /\
  unique_optimum two_week_table 1 [] 2 /\
  optimize_survivor_pool first_runtime two_week_table 1 [] 2 =
  optimize_survivor_pool reversed_runtime two_week_table 1 [] 2.
Proof.
  assert (Hu : unique_optimum two_week_table 1 [] 2).
  { apply (single_optimum_unique two_week_table 1 [] 2
             [(1, "A"%string); (2, "B"%string)]).
    vm_compute. reflexivity. }
  split; [exact first_runtime_ok | split; [exact reversed_runtime_ok |]].
  split; [exact Hu |].
  exact (deterministic_when_unique first_runtime reversed_runtime two_week_table
           1 [] 2 first_runtime_ok reversed_runtime_ok Hu).
Defined.

(** ** The objective and excluded opponents *)

(** C1, on the code: B is excluded, A (0.9) plays B and C (0.5) plays D in
    week 1. The row of A and B fails the guard of the objective, so A's
    variable has no term; every run selects C, although A is available,
    plays in week 1 and has the larger probability. *)
Theorem excluded_opponent_drops_weight (rt : Runtime) :
  runtime_ok rt ->
  objective (runtime_problem rt excluded_opponent_table 1 ["B"%string] 1) =
    [(5 # 10, (1, "C"%string)); (4 # 10, (1, "D"%string))] /\
  optimize_survivor_pool rt excluded_opponent_table 1 ["B"%string] 1 =
    ([], Return [C_week1]) /\
  ~ In "A"%string ["B"%string] /\
  entry excluded_opponent_table (1, "A"%string) =
    Return (make_metric 1 "A" (mkRow 1 "A" (9 # 10) "B" (1 # 10))) /\
  (Expected_Value (C_week1) <
   Expected_Value (make_metric 1 "A" (mkRow 1 "A" (9 # 10) "B" (1 # 10))))%Q.
Proof.
  intros Hrt. split; [| split; [| split; [| split]]].
  - unfold runtime_problem, build_problem.
    pose proof (runtime_available_perm rt excluded_opponent_table
                  ["B"%string] (proj1 Hrt)) as Hp.
    cbn [objective].
    rewrite (objective_terms_same excluded_opponent_table _ _
               (canonical_available excluded_opponent_table ["B"%string])).
    + vm_compute. reflexivity.
    + intros t. split.
      * apply Permutation_in, Hp.
      * apply Permutation_in, Permutation_sym, Hp.
  - rewrite (optimize_single_optimum rt excluded_opponent_table 1
               ["B"%string] 1 [(1, "C"%string)] Hrt).
    + vm_compute. reflexivity.
    + discriminate.
    + vm_compute. reflexivity.
  - intros [H | []]. discriminate H.
  - vm_compute. reflexivity.
  - vm_compute. reflexivity.
Qed.

Lemma excluded_opponent_drops_weight_witness :
  runtime_ok first_runtime /\
  objective (runtime_problem first_runtime excluded_opponent_table 1
               ["B"%string] 1) =
    [(5 # 10, (1, "C"%string)); (4 # 10, (1, "D"%string))] /\
  optimize_survivor_pool first_runtime excluded_opponent_table 1
    ["B"%string] 1 = ([], Return [C_week1]) /\
  ~ In "A"%string ["B"%string] /\
  entry excluded_opponent_table (1, "A"%string) =
    Return (make_metric 1 "A" (mkRow 1 "A" (9 # 10) "B" (1 # 10))) /\
  (Expected_Value C_week1 <
   Expected_Value (make_metric 1 "A" (mkRow 1 "A" (9 # 10) "B" (1 # 10))))%Q.
Proof.
  split; [exact first_runtime_ok |].
  exact (excluded_opponent_drops_weight first_runtime first_runtime_ok).
Defined.

(** * Further properties of [optimize_survivor_pool] *)

(** ** The keys of a returned plan *)

Lemma plan_key_of (df : DataFrame) (K : list LpVariable) (plan : list Metric) :
  mapM (entry df) K = Return plan -> map key_of plan = K.
Proof.
  intros H. apply mapM_Return in H.
  induction H as [| k m K' plan' He _ IH]; simpl; [reflexivity |].
  apply entry_Return in He. destruct He as [g [_ ->]].
  rewrite IH. unfold key_of. simpl. destruct k. reflexivity.
Qed.

(** A returned plan of a feasible problem lists the keys that an optimum of
    the canonical problem selects. *)
Lemma optimal_run_keys (rt : Runtime) (df : DataFrame) (cw : Z)
    (sel : list string) (dur : Z) (plan : list Metric) :
  runtime_ok rt ->
  (exists s, feasible (canonical_problem df cw sel dur) s) ->
  outcome (optimize_survivor_pool rt df cw sel dur) = Return plan ->
  exists value,
    is_optimal (canonical_problem df cw sel dur) value /\
    assignment_ok (horizon df cw dur) (canonical_available df sel) value /\
    map key_of plan =
      filter value (x_keys (horizon df cw dur) (canonical_available df sel)).
Proof.
  intros Hrt Hfeas Hrun.
  destruct df as [| row df'] eqn:Edf; [discriminate |]. rewrite <- Edf in *.
  destruct (optimize_optimal rt df cw sel dur Hrt) as [value [Hopt Heq]].
  { rewrite Edf. discriminate. }
  { exact Hfeas. }
  rewrite Heq in Hrun. unfold outcome in Hrun. simpl snd in Hrun.
  exists value. split; [exact Hopt | split].
  - apply feasible_build_iff with (df := df). exact (proj1 Hopt).
  - apply (plan_key_of df). exact Hrun.
Qed.

Lemma map_fst_key_of (plan : list Metric) :
  map fst (map key_of plan) = map m_Week plan.
Proof. rewrite map_map. reflexivity. Qed.

Lemma map_snd_key_of (plan : list Metric) :
  map snd (map key_of plan) = map Selected_Team plan.
Proof. rewrite map_map. reflexivity. Qed.

(** X1. With at least as many available teams as weeks in the horizon, a
    returned plan has exactly one entry for each week of the horizon, in the
    order in which the weeks first appear in the table. *)
Theorem every_week_once (rt : Runtime) (df : DataFrame) (cw : Z)
    (sel : list string) (dur : Z) (plan : list Metric) :
  runtime_ok rt ->
  enough_teams df cw sel dur ->
  outcome (optimize_survivor_pool rt df cw sel dur) = Return plan ->
  map m_Week plan = horizon df cw dur /\
  NoDup (map m_Week plan) /\
  List.length plan = List.length (horizon df cw dur).
Proof.
  intros Hrt Hen Hrun.
  destruct (optimal_run_keys rt df cw sel dur plan Hrt
              (enough_teams_feasible df cw sel dur Hen) Hrun)
    as [value [_ [Hok Hkeys]]].
  assert (Hw : map m_Week plan = horizon df cw dur).
  { rewrite <- map_fst_key_of, Hkeys. apply selected_weeks, Hok. }
  split; [exact Hw | split].
  - rewrite Hw. apply horizon_NoDup.
  - rewrite <- Hw. rewrite List.length_map. reflexivity.
Qed.

Lemma every_week_once_witness :
  runtime_ok first_runtime /\
  enough_teams two_week_table 1 [] 2 /\
  outcome (optimize_survivor_pool first_runtime two_week_table 1 [] 2)
    = Return [A_week1; B_week2] /\
  map m_Week [A_week1; B_week2] = horizon two_week_table 1 2 /\
  NoDup (map m_Week [A_week1; B_week2]) /\
  List.length [A_week1; B_week2] = List.length (horizon two_week_table 1 2).
Proof.
  assert (Hen : enough_teams two_week_table 1 [] 2)
    by (unfold enough_teams; vm_compute; lia).
  assert (Hrun : outcome (optimize_survivor_pool first_runtime
                            two_week_table 1 [] 2)
                 = Return [A_week1; B_week2])
    by (vm_compute; reflexivity).
  split; [exact first_runtime_ok | split; [exact Hen | split; [exact Hrun |]]].
  exact (every_week_once first_runtime two_week_table 1 [] 2
           [A_week1; B_week2] first_runtime_ok Hen Hrun).
Defined.

(** ** Tables in week order *)

Lemma StronglySorted_filter {A} (R : A -> A -> Prop) (f : A -> bool)
    (l : list A) :
  StronglySorted R l -> StronglySorted R (filter f l).
Proof.
  intros H. induction H as [| a l Hl IH Ha]; simpl; [constructor |].
  destruct (f a); [| exact IH].
  constructor; [exact IH |].
  apply Forall_forall. intros b Hb. apply filter_In in Hb.
  rewrite Forall_forall in Ha. apply Ha. exact (proj1 Hb).
Qed.

Lemma unique_sorted (l : list Z) :
  StronglySorted Z.le l -> StronglySorted Z.lt (unique l).
Proof.
  intros H. induction H as [| a l Hl IH Ha]; simpl; [constructor |].
  constructor.
  - apply StronglySorted_filter. exact IH.
  - apply Forall_forall. intros b Hb. apply filter_In in Hb.
    destruct Hb as [Hin Hne].
    apply negb_true_iff, Z.eqb_neq in Hne.
    apply (proj1 (unique_In l b)) in Hin. rewrite Forall_forall in Ha.
    specialize (Ha b Hin). lia.
Qed.

Lemma StronglySorted_app {A} (R : A -> A -> Prop) (l1 l2 : list A) :
  StronglySorted R l1 -> StronglySorted R l2 ->
  (forall a b, In a l1 -> In b l2 -> R a b) ->
  StronglySorted R (l1 ++ l2).
Proof.
  intros H1 H2 H. induction H1 as [| a l Hl IH Ha]; simpl; [exact H2 |].
  constructor.
  - apply IH. intros x y Hx Hy. apply H; [right |]; assumption.
  - apply Forall_app. split; [exact Ha |].
    apply Forall_forall. intros b Hb. apply H; [left; reflexivity | exact Hb].
Qed.

Lemma constant_sorted (w : Z) (l : list Z) :
  (forall v, In v l -> v = w) -> StronglySorted Z.le l.
Proof.
  induction l as [| a r IH]; intros H; constructor.
  - apply IH. intros v Hv. apply H. right. exact Hv.
  - apply Forall_forall. intros b Hb.
    rewrite (H a (or_introl eq_refl)), (H b (or_intror Hb)). lia.
Qed.

Lemma flat_map_weeks_sorted {A} (week_of : A -> Z) (rows : Z -> list A)
    (weeks : list Z) :
  (forall w r, In r (rows w) -> week_of r = w) ->
  StronglySorted Z.le weeks ->
  StronglySorted Z.le (map week_of (flat_map rows weeks)).
Proof.
  intros Hrows H. induction H as [| w l Hl IH Hw]; simpl; [constructor |].
  rewrite map_app. apply StronglySorted_app.
  - apply (constant_sorted w). intros v Hv. apply in_map_iff in Hv.
    destruct Hv as [r [<- Hr]]. apply Hrows, Hr.
  - exact IH.
  - intros a b Ha Hb. apply in_map_iff in Ha, Hb.
    destruct Ha as [r1 [<- Hr1]]. destruct Hb as [r2 [<- Hr2]].
    rewrite (Hrows w r1 Hr1). apply in_flat_map in Hr2.
    destruct Hr2 as [v [Hv Hr2]]. rewrite (Hrows v r2 Hr2).
    rewrite Forall_forall in Hw. apply Hw, Hv.
Qed.

Lemma StronglySorted_map_filter {A B} (R : B -> B -> Prop) (f : A -> B)
    (g : A -> bool) (l : list A) :
  StronglySorted R (map f l) -> StronglySorted R (map f (filter g l)).
Proof.
  induction l as [| a r IH]; simpl; intros H; [constructor |].
  inversion H as [| x y Hr Ha]. subst.
  destruct (g a); [| apply IH; exact Hr].
  simpl. constructor; [apply IH; exact Hr |].
  apply Forall_forall. intros b Hb. apply in_map_iff in Hb.
  destruct Hb as [c [<- Hc]]. apply filter_In in Hc.
  rewrite Forall_forall in Ha. apply Ha. apply in_map. exact (proj1 Hc).
Qed.

Lemma StronglySorted_lt_le (l : list Z) :
  StronglySorted Z.lt l -> StronglySorted Z.le l.
Proof.
  intros H. induction H as [| a l Hl IH Ha]; constructor; [exact IH |].
  apply Forall_forall. intros b Hb. rewrite Forall_forall in Ha.
  apply Z.lt_le_incl. apply Ha, Hb.
Qed.

Lemma horizon_sorted (df : DataFrame) (cw dur : Z) :
  StronglySorted Z.le (map Week df) -> StronglySorted Z.lt (horizon df cw dur).
Proof.
  intros H. unfold horizon, remaining_weeks_of.
  apply StronglySorted_filter, unique_sorted. exact H.
Qed.

(** X2. When the Week column of the table is in nondecreasing order, as in
    a table gathered week by week, a returned plan is in nondecreasing week
    order, for any runtime; it is in strictly increasing week order when the
    solver answers exactly and there are at least as many available teams as
    weeks in the horizon. *)
Theorem plan_in_week_order (rt : Runtime) (df : DataFrame) (cw : Z)
    (sel : list string) (dur : Z) (plan : list Metric) :
  StronglySorted Z.le (map Week df) ->
  outcome (optimize_survivor_pool rt df cw sel dur) = Return plan ->
  StronglySorted Z.le (map m_Week plan) /\
  (runtime_ok rt -> enough_teams df cw sel dur ->
   StronglySorted Z.lt (map m_Week plan)).
Proof.
  intros Hsorted Hrun. split.
  - destruct df as [| row df'] eqn:Edf; [discriminate |].
    rewrite <- Edf in *.
    rewrite optimize_unfold in Hrun by (rewrite Edf; discriminate).
    unfold outcome in Hrun. simpl snd in Hrun.
    destruct (plan_keys df _ plan Hrun) as [-> _].
    apply StronglySorted_map_filter. unfold x_keys.
    apply flat_map_weeks_sorted.
    + intros w k Hk. apply in_map_iff in Hk. destruct Hk as [t [<- _]].
      reflexivity.
    + apply StronglySorted_lt_le, horizon_sorted. exact Hsorted.
  - intros Hrt Hen.
    destruct (optimal_run_keys rt df cw sel dur plan Hrt
                (enough_teams_feasible df cw sel dur Hen) Hrun)
      as [value [_ [Hok Hkeys]]].
    rewrite <- map_fst_key_of, Hkeys, (selected_weeks _ _ _ Hok).
    apply horizon_sorted. exact Hsorted.
Qed.

Lemma plan_in_week_order_witness :
  StronglySorted Z.le (map Week two_week_table) /\
  outcome (optimize_survivor_pool first_runtime two_week_table 1 [] 2)
    = Return [A_week1; B_week2] /\
  StronglySorted Z.le (map m_Week [A_week1; B_week2]) /\
  (runtime_ok first_runtime -> enough_teams two_week_table 1 [] 2 ->
   StronglySorted Z.lt (map m_Week [A_week1; B_week2])).
Proof.
  assert (Hs : StronglySorted Z.le (map Week two_week_table)).
  { simpl. repeat constructor. lia. }
  assert (Hrun : outcome (optimize_survivor_pool first_runtime
                            two_week_table 1 [] 2)
                 = Return [A_week1; B_week2])
    by (vm_compute; reflexivity).
  split; [exact Hs | split; [exact Hrun |]].
  exact (plan_in_week_order first_runtime two_week_table 1 [] 2
           [A_week1; B_week2] Hs Hrun).
Defined.

(** ** When the warning is printed *)

Lemma feasible_enough_teams (df : DataFrame) (cw : Z) (sel : list string)
    (dur : Z) :
  (exists s, feasible (canonical_problem df cw sel dur) s) ->
  enough_teams df cw sel dur.
Proof.
  intros [s Hs]. apply feasible_build_iff in Hs. unfold enough_teams.
  set (rem := horizon df cw dur) in *.
  set (avail := canonical_available df sel) in *.
  pose proof (selected_weeks rem avail s Hs) as Hw.
  pose proof (selected_teams_NoDup rem avail s (horizon_NoDup df cw dur)
                (canonical_available_NoDup df sel) Hs) as Hnd.
  rewrite <- Hw at 1. rewrite List.length_map.
  rewrite <- (List.length_map snd).
  apply NoDup_incl_length; [exact Hnd |].
  intros t Ht. apply in_map_iff in Ht. destruct Ht as [[w t'] [<- Hk]].
  apply filter_In in Hk. destruct Hk as [Hk _].
  apply x_keys_In in Hk. exact (proj2 Hk).
Qed.

Lemma printed_enough (rt : Runtime) (df : DataFrame) (cw : Z)
    (sel : list string) (dur : Z) :
  runtime_ok rt -> df <> [] -> enough_teams df cw sel dur ->
  fst (optimize_survivor_pool rt df cw sel dur) = [].
Proof.
  intros Hrt Hne Hen.
  destruct (optimize_optimal rt df cw sel dur Hrt Hne
              (enough_teams_feasible df cw sel dur Hen)) as [v [_ ->]].
  reflexivity.
Qed.

Lemma runtime_infeasible (rt : Runtime) (df : DataFrame) (cw : Z)
    (sel : list string) (dur : Z) :
  set_list_ok (py_set_list rt) ->
  ~ enough_teams df cw sel dur ->
  ~ (exists s, feasible (runtime_problem rt df cw sel dur) s).
Proof.
  intros Hset Hnot [s Hs]. apply Hnot. apply feasible_enough_teams.
  exists s. unfold runtime_problem in Hs. unfold canonical_problem.
  apply (feasible_perm df _ _ _ s (runtime_available_perm rt df sel Hset)).
  exact Hs.
Qed.

(** X3. On a table with at least one row, the warning is printed exactly
    when there are fewer available teams than weeks in the horizon, and then
    it reports the status Infeasible. *)
Theorem warning_when_too_few_teams (rt : Runtime) (df : DataFrame) (cw : Z)
    (sel : list string) (dur : Z) :
  runtime_ok rt -> df <> [] ->
  (enough_teams df cw sel dur ->
     fst (optimize_survivor_pool rt df cw sel dur) = []) /\
  (~ enough_teams df cw sel dur ->
     fst (optimize_survivor_pool rt df cw sel dur) =
       ["Optimization problem did not solve to optimality. Status: Infeasible"%string]).
Proof.
  intros Hrt Hne. split.
  - apply printed_enough; assumption.
  - intros Hnot. rewrite (optimize_unfold rt df cw sel dur Hne). simpl fst.
    destruct (proj2 Hrt (runtime_problem rt df cw sel dur)) as [_ Hno].
    rewrite Hno; [reflexivity |].
    apply runtime_infeasible; [exact (proj1 Hrt) | exact Hnot].
Qed.

Lemma warning_when_too_few_teams_witness :
  runtime_ok first_runtime /\ two_week_table <> [] /\
  (enough_teams two_week_table 1 ["A"%string] 2 ->
     fst (optimize_survivor_pool first_runtime two_week_table 1
            ["A"%string] 2) = []) /\
  (~ enough_teams two_week_table 1 ["A"%string] 2 ->
     fst (optimize_survivor_pool first_runtime two_week_table 1
            ["A"%string] 2) =
       ["Optimization problem did not solve to optimality. Status: Infeasible"%string]).
Proof.
  assert (Hne : two_week_table <> []) by discriminate.
  split; [exact first_runtime_ok | split; [exact Hne |]].
  exact (warning_when_too_few_teams first_runtime two_week_table 1
           ["A"%string] 2 first_runtime_ok Hne).
Defined.

(** One available team for two weeks: the warning is printed. *)
Example one_team_two_weeks :
  ~ enough_teams two_week_table 1 ["A"%string] 2 /\
  fst (optimize_survivor_pool first_runtime two_week_table 1 ["A"%string] 2) =
    ["Optimization problem did not solve to optimality. Status: Infeasible"%string].
Proof.
  split; [unfold enough_teams; vm_compute; lia | vm_compute; reflexivity].
Qed.

(** ** Every team already selected *)

Lemma x_keys_no_team (rem : list Z) : x_keys rem [] = [].
Proof. unfold x_keys. induction rem as [| w r IH]; simpl; [| exact IH]; reflexivity. Qed.

Lemma available_none (teams sel : list string) :
  (forall t, In t teams -> In t sel) -> available_teams_of teams sel = [].
Proof.
  intros H. unfold available_teams_of. apply filter_none.
  intros t Ht. apply negb_false_iff, in_teams_In, H, Ht.
Qed.

(** X4. When every team of the table is already selected, the run returns
    the empty plan; it prints the Infeasible warning unless the horizon is
    empty as well. *)
Theorem all_teams_selected (rt : Runtime) (df : DataFrame) (cw : Z)
    (sel : list string) (dur : Z) :
  runtime_ok rt -> df <> [] ->
  (forall t, In t (team_columns df) -> In t sel) ->
  optimize_survivor_pool rt df cw sel dur =
  (match horizon df cw dur with
   | [] => []
   | _ :: _ =>
       ["Optimization problem did not solve to optimality. Status: Infeasible"%string]
   end, Return []).
Proof.
  intros Hrt Hne Hall.
  assert (Hav : runtime_available rt df sel = []).
  { unfold runtime_available. apply available_none.
    intros t Ht. apply Hall. apply (proj2 (proj1 Hrt (team_columns df))), Ht. }
  assert (Hcan : canonical_available df sel = []).
  { unfold canonical_available. apply available_none.
    intros t Ht. apply Hall. apply nodup_In in Ht. exact Ht. }
  rewrite (surjective_pairing (optimize_survivor_pool rt df cw sel dur)).
  f_equal.
  - destruct (horizon df cw dur) as [| w r] eqn:Eh.
    + apply printed_enough; [exact Hrt | exact Hne |].
      unfold enough_teams. rewrite Eh. simpl. lia.
    + rewrite (optimize_unfold rt df cw sel dur Hne). simpl fst.
      destruct (proj2 Hrt (runtime_problem rt df cw sel dur)) as [_ Hno].
      rewrite Hno; [reflexivity |].
      apply runtime_infeasible; [exact (proj1 Hrt) |].
      unfold enough_teams. rewrite Eh, Hcan. simpl. lia.
  - rewrite (optimize_unfold rt df cw sel dur Hne). simpl snd.
    rewrite Hav, x_keys_no_team. reflexivity.
Qed.

Lemma all_teams_selected_witness :
  runtime_ok first_runtime /\ two_week_table <> [] /\
  (forall t, In t (team_columns two_week_table) ->
     In t ["A"%string; "B"%string]) /\
  optimize_survivor_pool first_runtime two_week_table 1
    ["A"%string; "B"%string] 2 =
  (match horizon two_week_table 1 2 with
   | [] => []
   | _ :: _ =>
       ["Optimization problem did not solve to optimality. Status: Infeasible"%string]
   end, Return []).
Proof.
  assert (Hne : two_week_table <> []) by discriminate.
  assert (Hall : forall t, In t (team_columns two_week_table) ->
                   In t ["A"%string; "B"%string]).
  { intros t Ht. simpl in Ht. simpl. tauto. }
  split; [exact first_runtime_ok | split; [exact Hne | split; [exact Hall |]]].
  exact (all_teams_selected first_runtime two_week_table 1
           ["A"%string; "B"%string] 2 first_runtime_ok Hne Hall).
Defined.

(** ** [selected_teams] is read as a set *)

Lemma available_teams_same (teams sel sel' : list string) :
  (forall t, In t sel <-> In t sel') ->
  available_teams_of teams sel = available_teams_of teams sel'.
Proof.
  intros H. unfold available_teams_of. apply filter_agree.
  intros t _. f_equal. apply bool_eq_iff. rewrite !in_teams_In. apply H.
Qed.

(** X5. The result only depends on which teams are in [selected_teams]:
    two lists with the same members, in any order and with any repetitions,
    give the same printed lines and the same plan or error, for any
    runtime. *)
Theorem selected_teams_as_set (rt : Runtime) (df : DataFrame) (cw : Z)
    (sel sel' : list string) (dur : Z) :
  (forall t, In t sel <-> In t sel') ->
  optimize_survivor_pool rt df cw sel dur =
  optimize_survivor_pool rt df cw sel' dur.
Proof.
  intros H. unfold optimize_survivor_pool.
  rewrite (available_teams_same _ sel sel' H). reflexivity.
Qed.

Lemma selected_teams_as_set_witness :
  (forall t, In t ["B"%string; "D"%string] <->
             In t ["D"%string; "B"%string; "D"%string]) /\
  optimize_survivor_pool first_runtime excluded_opponent_table 1
    ["B"%string; "D"%string] 1 =
  optimize_survivor_pool first_runtime excluded_opponent_table 1
    ["D"%string; "B"%string; "D"%string] 1.
Proof.
  assert (H : forall t, In t ["B"%string; "D"%string] <->
                        In t ["D"%string; "B"%string; "D"%string])
    by (intros t; simpl; tauto).
  split; [exact H |].
  exact (selected_teams_as_set first_runtime excluded_opponent_table 1
           ["B"%string; "D"%string] ["D"%string; "B"%string; "D"%string] 1 H).
Defined.

(** ** Durations that reach past the last week *)

(** X6. Any two durations whose window reaches the last week of the table
    give the same result: the part of the window after the last week is
    cut off. *)
Theorem duration_clipped (rt : Runtime) (df : DataFrame) (cw : Z)
    (sel : list string) (dur dur' max_week : Z) :
  py_max (weeks_of df) = Return max_week ->
  max_week <= cw + dur - 1 ->
  max_week <= cw + dur' - 1 ->
  optimize_survivor_pool rt df cw sel dur =
  optimize_survivor_pool rt df cw sel dur'.
Proof.
  intros Hmax H1 H2. unfold optimize_survivor_pool. rewrite Hmax.
  rewrite !Z.min_r by assumption. reflexivity.
Qed.

Lemma duration_clipped_witness :
  py_max (weeks_of two_week_table) = Return 2 /\
  2 <= 1 + 2 - 1 /\
  2 <= 1 + 14 - 1 /\
  optimize_survivor_pool first_runtime two_week_table 1 [] 2 =
  optimize_survivor_pool first_runtime two_week_table 1 [] 14.
Proof.
  assert (Hmax : py_max (weeks_of two_week_table) = Return 2) by reflexivity.
  assert (H1 : 2 <= 1 + 2 - 1) by lia.
  assert (H2 : 2 <= 1 + 14 - 1) by lia.
  split; [exact Hmax | split; [exact H1 | split; [exact H2 |]]].
  exact (duration_clipped first_runtime two_week_table 1 [] 2 14 2 Hmax H1 H2).
Defined.

(** ** Games outside the horizon *)

Lemma same_in_horizon_weeks (rem : list Z) (df df' : DataFrame) :
  Forall2 (same_in_horizon rem) df df' -> map Week df = map Week df'.
Proof.
  intros H. induction H as [| r r' l l' Hr _ IH]; simpl; [reflexivity |].
  destruct Hr as [Hw _]. rewrite Hw, IH. reflexivity.
Qed.

Lemma same_in_horizon_teams (rem : list Z) (df df' : DataFrame) :
  Forall2 (same_in_horizon rem) df df' -> team_columns df = team_columns df'.
Proof.
  intros H. unfold team_columns. f_equal.
  - induction H as [| r r' l l' Hr _ IH]; simpl; [reflexivity |].
    destruct Hr as [_ [Hh _]]. rewrite Hh, IH. reflexivity.
  - induction H as [| r r' l l' Hr _ IH]; simpl; [reflexivity |].
    destruct Hr as [_ [_ [Ha _]]]. rewrite Ha, IH. reflexivity.
Qed.

Lemma same_in_horizon_objective (rem : list Z) (avail : list string)
    (x : list LpVariable) (df df' : DataFrame) :
  Forall2 (same_in_horizon rem) df df' ->
  objective_terms df rem avail x = objective_terms df' rem avail x.
Proof.
  intros H. unfold objective_terms.
  induction H as [| r r' l l' Hr _ IH]; simpl; [reflexivity |].
  rewrite IH. f_equal.
  destruct Hr as [Hw [Hh [Ha Hp]]]. rewrite <- Hw, <- Hh, <- Ha.
  destruct (in_weeks (Week r) rem) eqn:E; simpl; [| reflexivity].
  apply in_weeks_In in E. destruct (Hp E) as [-> ->]. reflexivity.
Qed.

Lemma same_in_horizon_row (rem : list Z) (r r' : Row) :
  same_in_horizon rem r r' -> In (Week r) rem -> r = r'.
Proof.
  intros [Hw [Hh [Ha Hp]]] Hin. destruct (Hp Hin) as [Hhp Hap].
  destruct r, r'. simpl in *. subst. reflexivity.
Qed.

Lemma same_in_horizon_entry (rem : list Z) (df df' : DataFrame)
    (k : LpVariable) :
  Forall2 (same_in_horizon rem) df df' -> In (fst k) rem ->
  entry df k = entry df' k.
Proof.
  intros H Hk. unfold entry.
  induction H as [| r r' l l' Hr _ IH]; simpl; [reflexivity |].
  assert (Hplays : plays (fst k) (snd k) r' = plays (fst k) (snd k) r).
  { destruct Hr as [Hw [Hh [Ha _]]]. unfold plays.
    rewrite Hw, Hh, Ha. reflexivity. }
  rewrite Hplays. destruct (plays (fst k) (snd k) r) eqn:E; [| exact IH].
  simpl. f_equal. f_equal. apply (same_in_horizon_row rem r r' Hr).
  apply plays_cases in E. rewrite (proj1 E). exact Hk.
Qed.

Lemma mapM_agree {A B} (f g : A -> exc B) (l : list A) :
  (forall a, In a l -> f a = g a) -> mapM f l = mapM g l.
Proof.
  induction l as [| a r IH]; simpl; intros H; [reflexivity |].
  rewrite (H a (or_introl eq_refl)), IH; [reflexivity |].
  intros b Hb. apply H. right. assumption.
Qed.

(** X7. The probabilities of games outside the horizon are never read: two
    tables with the same weeks and teams row by row, and the same
    probabilities in the rows of the horizon, give the same result, for any
    runtime. *)
Theorem outside_horizon_ignored (rt : Runtime) (df df' : DataFrame) (cw : Z)
    (sel : list string) (dur : Z) :
  Forall2 (same_in_horizon (horizon df cw dur)) df df' ->
  optimize_survivor_pool rt df cw sel dur =
  optimize_survivor_pool rt df' cw sel dur.
Proof.
  intros H.
  destruct df as [| row df0] eqn:Edf.
  { inversion H. reflexivity. }
  rewrite <- Edf in *.
  assert (Hne : df <> []) by (rewrite Edf; discriminate).
  assert (Hne' : df' <> []).
  { intros E. rewrite E, Edf in H. inversion H. }
  pose proof (same_in_horizon_weeks _ _ _ H) as Hweeks.
  pose proof (same_in_horizon_teams _ _ _ H) as Hteams.
  assert (Hhor : horizon df' cw dur = horizon df cw dur).
  { unfold horizon, end_week_of, weeks_of. rewrite Hweeks. reflexivity. }
  assert (Hav : runtime_available rt df' sel = runtime_available rt df sel).
  { unfold runtime_available. rewrite Hteams. reflexivity. }
  assert (Hprob : runtime_problem rt df' cw sel dur =
                  runtime_problem rt df cw sel dur).
  { unfold runtime_problem, build_problem. rewrite Hhor, Hav.
    rewrite (same_in_horizon_objective _ _ _ _ _ H). reflexivity. }
  rewrite (optimize_unfold rt df cw sel dur Hne).
  rewrite (optimize_unfold rt df' cw sel dur Hne').
  rewrite Hprob, Hhor, Hav. f_equal.
  apply mapM_agree. intros k Hk. apply filter_In in Hk.
  destruct Hk as [Hk _]. destruct k as [w t].
  apply x_keys_In in Hk.
  apply (same_in_horizon_entry _ _ _ (w, t) H). exact (proj1 Hk).
Qed.

Lemma outside_horizon_ignored_witness :
  Forall2 (same_in_horizon (horizon two_week_table 1 1)) two_week_table
    [mkRow 1 "A" (9 # 10) "B" (5 # 10); mkRow 2 "A" (1 # 10) "B" (2 # 10)] /\
  optimize_survivor_pool first_runtime two_week_table 1 [] 1 =
  optimize_survivor_pool first_runtime
    [mkRow 1 "A" (9 # 10) "B" (5 # 10); mkRow 2 "A" (1 # 10) "B" (2 # 10)]
    1 [] 1.
Proof.
  assert (H : Forall2 (same_in_horizon (horizon two_week_table 1 1))
                two_week_table
                [mkRow 1 "A" (9 # 10) "B" (5 # 10);
                 mkRow 2 "A" (1 # 10) "B" (2 # 10)]).
  { unfold two_week_table. constructor; [| constructor; [| constructor]].
    - split; [reflexivity | split; [reflexivity | split; [reflexivity |]]].
      intros _. split; reflexivity.
    - split; [reflexivity | split; [reflexivity | split; [reflexivity |]]].
      intros Hin. vm_compute in Hin. destruct Hin as [E | []]. discriminate E. }
  split; [exact H |].
  exact (outside_horizon_ignored first_runtime two_week_table _ 1 [] 1 H).
Defined.

(** ** The plan maximises the objective *)

Lemma qsum_app (l1 l2 : list Q) : (qsum (l1 ++ l2) == qsum l1 + qsum l2)%Q.
Proof.
  induction l1 as [| a r IH]; simpl; [lra |]. rewrite IH. lra.
Qed.

Lemma qsum_map_equiv {A} (f g : A -> Q) (l : list A) :
  (forall a, In a l -> (f a == g a)%Q) ->
  (qsum (map f l) == qsum (map g l))%Q.
Proof.
  induction l as [| a r IH]; simpl; intros H; [lra |].
  rewrite (H a (or_introl eq_refl)), IH; [lra |].
  intros b Hb. apply H. right. exact Hb.
Qed.

Lemma key_weight_app (o1 o2 : list (Q * LpVariable)) (k : LpVariable) :
  (key_weight (o1 ++ o2) k == key_weight o1 k + key_weight o2 k)%Q.
Proof.
  unfold key_weight. rewrite filter_app, map_app. apply qsum_app.
Qed.

Lemma key_weight_cons (c : Q) (v : LpVariable) (o : list (Q * LpVariable))
    (k : LpVariable) :
  (key_weight ((c, v) :: o) k ==
   (if var_eqb v k then c else 0) + key_weight o k)%Q.
Proof.
  unfold key_weight. simpl. destruct (var_eqb v k); simpl; lra.
Qed.

Lemma qsum_key_weight_cons (c : Q) (v : LpVariable)
    (o : list (Q * LpVariable)) (K : list LpVariable) :
  NoDup K ->
  (qsum (map (key_weight ((c, v) :: o)) K) ==
   (if solution_of K v then c else 0) + qsum (map (key_weight o) K))%Q.
Proof.
  intros Hnd. induction Hnd as [| k K' Hnotin Hnd IH]; simpl; [lra |].
  rewrite key_weight_cons, IH. unfold solution_of. simpl.
  destruct (var_eqb v k) eqn:E; simpl.
  - apply var_eqb_eq in E. subst k.
    destruct (existsb (var_eqb v) K') eqn:E'.
    + exfalso. apply Hnotin. apply solution_of_In. exact E'.
    + lra.
  - destruct (existsb (var_eqb v) K'); lra.
Qed.

Lemma qsum_key_weight_nil (K : list LpVariable) :
  (qsum (map (key_weight []) K) == 0)%Q.
Proof. induction K as [| k r IH]; simpl; [lra |]. rewrite IH. unfold key_weight. simpl. lra. Qed.

(** The objective at a solution is the total weight of the keys it
    selects. *)
Lemma objective_value_keys (s : Solution) (o : list (Q * LpVariable))
    (K : list LpVariable) :
  NoDup K ->
  (forall cv, In cv o -> (s (snd cv) = true <-> In (snd cv) K)) ->
  (objective_value s o == qsum (map (key_weight o) K))%Q.
Proof.
  intros Hnd. induction o as [| [c v] o' IH]; intros H.
  - simpl. rewrite qsum_key_weight_nil. lra.
  - rewrite (qsum_key_weight_cons c v o' K Hnd). simpl.
    rewrite IH by (intros cv Hcv; apply H; right; exact Hcv).
    assert (E : s v = solution_of K v).
    { apply bool_eq_iff. rewrite solution_of_In.
      apply (H (c, v)). left. reflexivity. }
    rewrite E. lra.
Qed.

Lemma objective_terms_keys (df : DataFrame) (rem : list Z)
    (avail : list string) (cv : Q * LpVariable) :
  In cv (objective_terms df rem avail (x_keys rem avail)) ->
  In (snd cv) (x_keys rem avail).
Proof.
  unfold objective_terms. rewrite in_flat_map. intros [row [_ Hcv]].
  destruct (in_weeks (Week row) rem) eqn:Ew; simpl in Hcv; [| contradiction].
  destruct (in_teams (Home_Team row) avail) eqn:Eh; simpl in Hcv;
    [| contradiction].
  destruct (in_x (x_keys rem avail) (Week row, Home_Team row)) eqn:Exh;
    simpl in Hcv; [| contradiction].
  destruct (in_teams (Away_Team row) avail) eqn:Ea; simpl in Hcv;
    [| contradiction].
  destruct (in_x (x_keys rem avail) (Week row, Away_Team row)) eqn:Exa;
    simpl in Hcv; [| contradiction].
  apply in_weeks_In in Ew. apply in_teams_In in Eh, Ea.
  destruct Hcv as [<- | [<- | []]]; simpl; apply x_keys_In; split; assumption.
Qed.

Lemma combine_NoDup {A B} (l : list A) (l' : list B) :
  NoDup l -> NoDup (combine l l').
Proof.
  intros Hnd. revert l'.
  induction Hnd as [| a r Hnotin Hnd IH]; intros l'; simpl; [constructor |].
  destruct l' as [| b r']; constructor.
  - intros Hin. apply Hnotin. apply (in_combine_l _ _ _ _ Hin).
  - apply IH.
Qed.

(** Giving the weeks of the horizon, in order, the distinct available teams
    [ts] meets the constraints. *)
Lemma teams_assignment_ok (rem : list Z) (avail ts : list string) :
  NoDup rem -> NoDup avail -> NoDup ts ->
  List.length ts = List.length rem ->
  incl ts avail ->
  assignment_ok rem avail (solution_of (combine rem ts)).
Proof.
  intros Hrem Havail Hts Hlen Hincl. split.
  - intros t _.
    rewrite expr_value_length, filter_map_swap, List.length_map.
    apply inj_le with (m := 1%nat).
    apply filter_at_most_one; [exact Hrem |].
    intros a b _ _ Ha Hb. apply solution_of_In in Ha, Hb.
    apply (combine_injective rem ts a b t Hts Ha Hb).
  - intros w Hw.
    rewrite expr_value_length, filter_map_swap, List.length_map.
    destruct (combine_total rem ts w) as [t Ht]; [lia | exact Hw |].
    assert (Hle : (List.length
                     (filter (fun t0 => solution_of (combine rem ts) (w, t0))
                        avail) <= 1)%nat).
    { apply filter_at_most_one; [exact Havail |].
      intros a b _ _ Ha Hb. apply solution_of_In in Ha, Hb.
      apply (combine_functional rem ts w a b Hrem Ha Hb). }
    assert (Hge : (1 <= List.length
                     (filter (fun t0 => solution_of (combine rem ts) (w, t0))
                        avail))%nat).
    { apply filter_at_least_one with (a := t).
      - apply Hincl. apply (in_combine_r _ _ _ _ Ht).
      - apply solution_of_In. exact Ht. }
    lia.
Qed.

Lemma canonical_available_In (df : DataFrame) (sel : list string) (t : string) :
  In t (canonical_available df sel) <-> In t (team_columns df) /\ ~ In t sel.
Proof.
  unfold canonical_available. rewrite available_teams_In, nodup_In. tauto.
Qed.

(** The solution that follows [ts] is feasible, and the objective there is
    the total weight of its keys. *)
Lemma teams_solution (df : DataFrame) (cw : Z) (sel : list string) (dur : Z)
    (ts : list string) :
  List.length ts = List.length (horizon df cw dur) ->
  NoDup ts ->
  (forall t, In t ts -> In t (team_columns df) /\ ~ In t sel) ->
  feasible (canonical_problem df cw sel dur)
    (solution_of (combine (horizon df cw dur) ts)) /\
  (objective_value (solution_of (combine (horizon df cw dur) ts))
     (objective (canonical_problem df cw sel dur)) ==
   qsum (map (key_weight (objective (canonical_problem df cw sel dur)))
           (combine (horizon df cw dur) ts)))%Q.
Proof.
  intros Hlen Hts Hav. split.
  - apply feasible_build_iff. apply teams_assignment_ok; try assumption.
    + apply horizon_NoDup.
    + apply canonical_available_NoDup.
    + intros t Ht. apply canonical_available_In. apply Hav, Ht.
  - apply objective_value_keys.
    + apply combine_NoDup, horizon_NoDup.
    + intros cv _. apply solution_of_In.
Qed.

(** The objective at the solver's answer is the total weight of the keys of
    the returned plan, and no feasible solution has a larger objective. *)
Lemma plan_beats_feasible (rt : Runtime) (df : DataFrame) (cw : Z)
    (sel : list string) (dur : Z) (plan : list Metric) (s : Solution) :
  runtime_ok rt ->
  outcome (optimize_survivor_pool rt df cw sel dur) = Return plan ->
  feasible (canonical_problem df cw sel dur) s ->
  (objective_value s (objective (canonical_problem df cw sel dur)) <=
   qsum (map (key_weight (objective (canonical_problem df cw sel dur)))
           (map key_of plan)))%Q.
Proof.
  intros Hrt Hrun Hfeas.
  destruct (optimal_run_keys rt df cw sel dur plan Hrt
              (ex_intro _ _ Hfeas) Hrun) as [value [Hopt [Hok Hkeys]]].
  rewrite <- (objective_value_keys value).
  - exact (proj2 Hopt _ Hfeas).
  - rewrite Hkeys. apply NoDup_filter, x_keys_NoDup.
    + apply horizon_NoDup.
    + apply canonical_available_NoDup.
  - intros cv Hcv. rewrite Hkeys, filter_In.
    apply objective_terms_keys in Hcv. tauto.
Qed.

(** X8. A returned plan maximises the objective the solver was given: the
    total coefficient of its (week, team) keys is at least that of any other
    way of giving the weeks of the horizon, in order, distinct available
    teams. *)
Theorem plan_maximises_objective (rt : Runtime) (df : DataFrame) (cw : Z)
    (sel : list string) (dur : Z) (plan : list Metric) (ts : list string) :
  runtime_ok rt ->
  outcome (optimize_survivor_pool rt df cw sel dur) = Return plan ->
  List.length ts = List.length (horizon df cw dur) ->
  NoDup ts ->
  (forall t, In t ts -> In t (team_columns df) /\ ~ In t sel) ->
  (qsum (map (key_weight (objective (canonical_problem df cw sel dur)))
           (combine (horizon df cw dur) ts)) <=
   qsum (map (key_weight (objective (canonical_problem df cw sel dur)))
           (map key_of plan)))%Q.
Proof.
  intros Hrt Hrun Hlen Hts Hav.
  destruct (teams_solution df cw sel dur ts Hlen Hts Hav) as [Hfeas Hval].
  rewrite <- Hval.
  apply (plan_beats_feasible rt df cw sel dur plan _ Hrt Hrun Hfeas).
Qed.

Lemma plan_maximises_objective_witness :
  runtime_ok first_runtime /\
  outcome (optimize_survivor_pool first_runtime two_week_table 1 [] 2)
    = Return [A_week1; B_week2] /\
  List.length ["B"%string; "A"%string] =
    List.length (horizon two_week_table 1 2) /\
  NoDup ["B"%string; "A"%string] /\
  (forall t, In t ["B"%string; "A"%string] ->
     In t (team_columns two_week_table) /\ ~ In t []) /\
  (qsum (map (key_weight (objective (canonical_problem two_week_table 1 [] 2)))
           (combine (horizon two_week_table 1 2) ["B"%string; "A"%string])) <=
   qsum (map (key_weight (objective (canonical_problem two_week_table 1 [] 2)))
           (map key_of [A_week1; B_week2])))%Q.
Proof.
  assert (Hrun : outcome (optimize_survivor_pool first_runtime
                            two_week_table 1 [] 2)
                 = Return [A_week1; B_week2])
    by (vm_compute; reflexivity).
  assert (Hlen : List.length ["B"%string; "A"%string] =
                 List.length (horizon two_week_table 1 2)) by reflexivity.
  assert (Hnd : NoDup ["B"%string; "A"%string]).
  { constructor; [intros [E | []]; discriminate E |].
    constructor; [intros [] | constructor]. }
  assert (Hav : forall t, In t ["B"%string; "A"%string] ->
                  In t (team_columns two_week_table) /\ ~ In t []).
  { intros t Ht. split; [| intros []]. simpl in Ht. simpl. tauto. }
  split; [exact first_runtime_ok | split; [exact Hrun |]].
  split; [exact Hlen | split; [exact Hnd | split; [exact Hav |]]].
  exact (plan_maximises_objective first_runtime two_week_table 1 [] 2
           [A_week1; B_week2] ["B"%string; "A"%string]
           first_runtime_ok Hrun Hlen Hnd Hav).
Defined.

(** ** When a plan is returned *)

Lemma find_exists {A} (f : A -> bool) (l : list A) (a : A) :
  In a l -> f a = true -> exists b, find f l = Some b.
Proof.
  induction l as [| x r IH]; simpl; intros Hin Hf; [contradiction |].
  destruct (f x) eqn:E; [exists x; reflexivity |].
  destruct Hin as [-> | Hin]; [congruence | apply IH; assumption].
Qed.

Lemma mapM_total {A B} (f : A -> exc B) (l : list A) :
  (forall a, In a l -> exists b, f a = Return b) ->
  exists r, mapM f l = Return r.
Proof.
  induction l as [| a r IH]; simpl; intros H; [exists []; reflexivity |].
  destruct (H a (or_introl eq_refl)) as [b ->].
  destruct IH as [bs ->]; [intros x Hx; apply H; right; exact Hx |].
  exists (b :: bs). reflexivity.
Qed.

(** X13. When the solver answers exactly, there are at least as many
    available teams as weeks in the horizon and every available team has a
    game in every week of the horizon (no byes), the game lookup of lines
    145-149 finds a row for every selected key: no IndexError is raised, no
    warning is printed, and a plan is returned with one entry for each week
    of the horizon. *)
Theorem plan_returned_without_byes (rt : Runtime) (df : DataFrame) (cw : Z)
    (sel : list string) (dur : Z) :
  runtime_ok rt -> df <> [] ->
  enough_teams df cw sel dur ->
  (forall w t, In w (horizon df cw dur) ->
     In t (team_columns df) -> ~ In t sel ->
     exists row, In row df /\ plays w t row = true) ->
  exists plan,
    optimize_survivor_pool rt df cw sel dur = ([], Return plan) /\
    map m_Week plan = horizon df cw dur.
Proof.
  intros Hrt Hne Hen Hplay.
  destruct (optimize_optimal rt df cw sel dur Hrt Hne
              (enough_teams_feasible df cw sel dur Hen))
    as [value [Hopt Heq]].
  destruct (mapM_total (entry df)
              (filter value
                 (x_keys (horizon df cw dur) (canonical_available df sel))))
    as [plan Hplan].
  { intros [w t] Hk. apply filter_In in Hk. destruct Hk as [Hk _].
    apply x_keys_In in Hk. destruct Hk as [Hw Ht].
    apply canonical_available_In in Ht. destruct Ht as [Hin Hnot].
    destruct (Hplay w t Hw Hin Hnot) as [row [Hrow Hp]].
    destruct (find_exists (plays w t) df row Hrow Hp) as [g Hg].
    exists (make_metric w t g). unfold entry. rewrite iloc0_filter_find.
    simpl fst. simpl snd. rewrite Hg. reflexivity. }
  exists plan. rewrite Heq, Hplan. split; [reflexivity |].
  destruct (plan_keys df _ plan Hplan) as [-> _].
  apply selected_weeks.
  apply feasible_build_iff with (df := df). exact (proj1 Hopt).
Qed.

Lemma plan_returned_without_byes_witness :
  runtime_ok first_runtime /\ two_week_table <> [] /\
  enough_teams two_week_table 1 [] 2 /\
  (forall w t, In w (horizon two_week_table 1 2) ->
     In t (team_columns two_week_table) -> ~ In t [] ->
     exists row, In row two_week_table /\ plays w t row = true) /\
  exists plan,
    optimize_survivor_pool first_runtime two_week_table 1 [] 2
      = ([], Return plan) /\
    map m_Week plan = horizon two_week_table 1 2.
Proof.
  assert (Hne : two_week_table <> []) by discriminate.
  assert (Hen : enough_teams two_week_table 1 [] 2)
    by (unfold enough_teams; vm_compute; lia).
  assert (Hplay : forall w t, In w (horizon two_week_table 1 2) ->
            In t (team_columns two_week_table) -> ~ In t [] ->
            exists row, In row two_week_table /\ plays w t row = true).
  { intros w t Hw Ht _.
    assert (Hw' : w = 1 \/ w = 2).
    { vm_compute in Hw. destruct Hw as [E | [E | []]]; [left | right];
        symmetry; exact E. }
    assert (Ht' : t = "A"%string \/ t = "B"%string).
    { simpl in Ht. intuition congruence. }
    destruct Hw' as [-> | ->]; destruct Ht' as [-> | ->].
    - exists (mkRow 1 "A" (9 # 10) "B" (5 # 10)).
      split; [left; reflexivity | reflexivity].
    - exists (mkRow 1 "A" (9 # 10) "B" (5 # 10)).
      split; [left; reflexivity | reflexivity].
    - exists (mkRow 2 "A" (6 # 10) "B" (8 # 10)).
      split; [right; left; reflexivity | reflexivity].
    - exists (mkRow 2 "A" (6 # 10) "B" (8 # 10)).
      split; [right; left; reflexivity | reflexivity]. }
  split; [exact first_runtime_ok | split; [exact Hne | split; [exact Hen |]]].
  split; [exact Hplay |].
  exact (plan_returned_without_byes first_runtime two_week_table 1 [] 2
           first_runtime_ok Hne Hen Hplay).
Defined.

(** ** The plan maximises the expected value *)

Lemma row_terms_no_play (accept : bool) (r : Row) (w : Z) (t : string) :
  plays w t r = false ->
  (key_weight
     (if accept
      then [(Home_Probability r, (Week r, Home_Team r));
            (Away_Probability r, (Week r, Away_Team r))]
      else []) (w, t) == 0)%Q.
Proof.
  intros Hp. destruct accept; [| unfold key_weight; simpl; lra].
  rewrite !key_weight_cons. unfold plays in Hp.
  apply orb_false_iff in Hp. destruct Hp as [Hh Ha].
  unfold var_eqb. simpl fst. simpl snd. rewrite Hh, Ha.
  unfold key_weight. simpl. lra.
Qed.

Lemma terms_no_play (accept : Row -> bool) (l : list Row) (w : Z) (t : string) :
  (forall row, In row l -> plays w t row = false) ->
  (key_weight
     (flat_map (fun row =>
        if accept row
        then [(Home_Probability row, (Week row, Home_Team row));
              (Away_Probability row, (Week row, Away_Team row))]
        else []) l) (w, t) == 0)%Q.
Proof.
  induction l as [| r l' IH]; intros H.
  - unfold key_weight. simpl. lra.
  - cbn [flat_map]. rewrite key_weight_app.
    rewrite (row_terms_no_play (accept r) r w t (H r (or_introl eq_refl))).
    rewrite IH by (intros row Hrow; apply H; right; exact Hrow). lra.
Qed.

Lemma probability_of_cons (r : Row) (l : list Row) (w : Z) (t : string) :
  probability_of (r :: l) (w, t) =
  if plays w t r
  then (if String.eqb t (Home_Team r) then Home_Probability r
        else Away_Probability r)
  else probability_of l (w, t).
Proof.
  unfold probability_of. cbn [find fst snd].
  destruct (plays w t r); reflexivity.
Qed.

(** Where every game of week [w] passes the guard of the objective and no
    team is in two of them, the coefficient of [x[(w, t)]] is the
    probability of [t] in its game of week [w]. *)
Lemma terms_weight (accept : Row -> bool) (l : list Row) (w : Z) (t : string) :
  (forall row, In row l -> Week row = w -> accept row = true) ->
  (forall row, In row l -> Home_Team row <> Away_Team row) ->
  (List.length (filter (plays w t) l) <= 1)%nat ->
  (key_weight
     (flat_map (fun row =>
        if accept row
        then [(Home_Probability row, (Week row, Home_Team row));
              (Away_Probability row, (Week row, Away_Team row))]
        else []) l) (w, t) == probability_of l (w, t))%Q.
Proof.
  induction l as [| r l' IH]; intros Hacc Hne Hone.
  - unfold key_weight, probability_of. simpl. lra.
  - cbn [flat_map]. rewrite key_weight_app, probability_of_cons.
    cbn [filter] in Hone.
    destruct (plays w t r) eqn:Ep.
    + pose proof (plays_cases w t r Ep) as [Hweek Hside].
      rewrite (Hacc r (or_introl eq_refl) Hweek).
      rewrite terms_no_play.
      * rewrite !key_weight_cons. unfold var_eqb. simpl fst. simpl snd.
        rewrite Hweek, Z.eqb_refl. simpl andb.
        pose proof (Hne r (or_introl eq_refl)) as Hdiff.
        destruct (String.eqb t (Home_Team r)) eqn:Eh.
        -- apply String.eqb_eq in Eh. subst t.
           rewrite String.eqb_refl.
           destruct (String.eqb (Away_Team r) (Home_Team r)) eqn:Ea.
           ++ apply String.eqb_eq in Ea. congruence.
           ++ unfold key_weight. simpl. lra.
        -- apply String.eqb_neq in Eh.
           destruct Hside as [Hh | Ha]; [congruence |]. subst t.
           rewrite String.eqb_refl.
           destruct (String.eqb (Home_Team r) (Away_Team r)) eqn:Eh'.
           ++ apply String.eqb_eq in Eh'. congruence.
           ++ unfold key_weight. simpl. lra.
      * intros row Hrow. simpl in Hone.
        destruct (plays w t row) eqn:E; [| reflexivity].
        exfalso.
        assert (Hin : In row (filter (plays w t) l'))
          by (apply filter_In; split; assumption).
        destruct (filter (plays w t) l'); [contradiction | simpl in Hone; lia].
    + rewrite (row_terms_no_play (accept r) r w t Ep).
      rewrite IH.
      * lra.
      * intros row Hrow. apply Hacc. right. exact Hrow.
      * intros row Hrow. apply Hne. right. exact Hrow.
      * exact Hone.
Qed.

Lemma in_team_columns (df : DataFrame) (row : Row) :
  In row df ->
  In (Home_Team row) (team_columns df) /\ In (Away_Team row) (team_columns df).
Proof.
  intros H. unfold team_columns. split; apply in_or_app.
  - left. apply in_map, H.
  - right. apply in_map, H.
Qed.

Lemma weight_is_probability (df : DataFrame) (cw : Z) (sel : list string)
    (dur : Z) (w : Z) (t : string) :
  conflict_free df ->
  no_excluded_side df (horizon df cw dur) sel ->
  In w (horizon df cw dur) ->
  (key_weight (objective (canonical_problem df cw sel dur)) (w, t) ==
   probability_of df (w, t))%Q.
Proof.
  intros [Hdiff Hone] Hside Hw.
  unfold canonical_problem, build_problem. cbn [objective].
  unfold objective_terms.
  apply (terms_weight
           (fun row =>
              in_weeks (Week row) (horizon df cw dur) &&
              (in_teams (Home_Team row) (canonical_available df sel) &&
               in_x (x_keys (horizon df cw dur) (canonical_available df sel))
                 (Week row, Home_Team row)) &&
              (in_teams (Away_Team row) (canonical_available df sel) &&
               in_x (x_keys (horizon df cw dur) (canonical_available df sel))
                 (Week row, Away_Team row)))).
  - intros row Hrow Hweek. rewrite !in_x_keys.
    assert (Hin : In (Week row) (horizon df cw dur))
      by (rewrite Hweek; exact Hw).
    destruct (Hside row Hrow Hin) as [Hh Ha].
    destruct (in_team_columns df row Hrow) as [Hch Hca].
    assert (E1 : in_weeks (Week row) (horizon df cw dur) = true)
      by (apply in_weeks_In; exact Hin).
    assert (E2 : in_teams (Home_Team row) (canonical_available df sel) = true)
      by (apply in_teams_In, canonical_available_In; split; assumption).
    assert (E3 : in_teams (Away_Team row) (canonical_available df sel) = true)
      by (apply in_teams_In, canonical_available_In; split; assumption).
    rewrite E1, E2, E3. reflexivity.
  - exact Hdiff.
  - apply Hone.
Qed.

Lemma entry_expected_value (df : DataFrame) (k : LpVariable) (m : Metric) :
  entry df k = Return m ->
  key_of m = k /\ Expected_Value m = probability_of df k.
Proof.
  intros H. apply entry_Return in H. destruct H as [g [Hfind ->]].
  unfold key_of, probability_of. rewrite Hfind. simpl.
  destruct k. split; reflexivity.
Qed.

(** X9. On a table without conflicts (no team plays itself or twice in a
    week) whose games in the horizon have no excluded side, a returned plan
    maximises the total expected value: the sum of its Expected Value column
    is at least the total probability of any other way of giving the weeks
    of the horizon, in order, distinct available teams, a team without a
    game in its week counting 0. *)
Theorem plan_maximises_expected_value (rt : Runtime) (df : DataFrame)
    (cw : Z) (sel : list string) (dur : Z) (plan : list Metric)
    (ts : list string) :
  runtime_ok rt ->
  conflict_free df ->
  no_excluded_side df (horizon df cw dur) sel ->
  outcome (optimize_survivor_pool rt df cw sel dur) = Return plan ->
  List.length ts = List.length (horizon df cw dur) ->
  NoDup ts ->
  (forall t, In t ts -> In t (team_columns df) /\ ~ In t sel) ->
  (qsum (map (probability_of df) (combine (horizon df cw dur) ts)) <=
   qsum (map Expected_Value plan))%Q.
Proof.
  intros Hrt Hfree Hside Hrun Hlen Hts Hav.
  destruct (teams_solution df cw sel dur ts Hlen Hts Hav) as [Hfeas Hval].
  pose proof (plan_beats_feasible rt df cw sel dur plan _ Hrt Hrun Hfeas)
    as Hle.
  rewrite Hval in Hle.
  rewrite (qsum_map_equiv _ (probability_of df)) in Hle.
  - rewrite map_map in Hle.
    rewrite (qsum_map_equiv _ Expected_Value) in Hle; [exact Hle |].
    intros m Hm.
    destruct (plan_entry_key rt df cw sel dur plan m Hrun Hm)
      as [w [t [Hw [_ [_ He]]]]].
    destruct (entry_expected_value df (w, t) m He) as [-> ->].
    apply weight_is_probability; assumption.
  - intros [w t] Hk. apply weight_is_probability; try assumption.
    apply (in_combine_l _ _ _ _ Hk).
Qed.

Lemma two_week_table_conflict_free : conflict_free two_week_table.
Proof.
  split.
  - intros row [<- | [<- | []]]; simpl; discriminate.
  - intros w t. unfold two_week_table. cbn [filter].
    destruct (plays w t (mkRow 1 "A" (9 # 10) "B" (5 # 10))) eqn:E1;
      destruct (plays w t (mkRow 2 "A" (6 # 10) "B" (8 # 10))) eqn:E2;
      simpl; try lia.
    apply plays_cases in E1, E2. simpl in E1, E2. lia.
Qed.

Lemma plan_maximises_expected_value_witness :
  runtime_ok first_runtime /\
  conflict_free two_week_table /\
  no_excluded_side two_week_table (horizon two_week_table 1 2) [] /\
  outcome (optimize_survivor_pool first_runtime two_week_table 1 [] 2)
    = Return [A_week1; B_week2] /\
  List.length ["B"%string; "A"%string] =
    List.length (horizon two_week_table 1 2) /\
  NoDup ["B"%string; "A"%string] /\
  (forall t, In t ["B"%string; "A"%string] ->
     In t (team_columns two_week_table) /\ ~ In t []) /\
  (qsum (map (probability_of two_week_table)
           (combine (horizon two_week_table 1 2) ["B"%string; "A"%string])) <=
   qsum (map Expected_Value [A_week1; B_week2]))%Q.
Proof.
  assert (Hside : no_excluded_side two_week_table
                    (horizon two_week_table 1 2) []).
  { intros row _ _. split; intros []. }
  assert (Hrun : outcome (optimize_survivor_pool first_runtime
                            two_week_table 1 [] 2)
                 = Return [A_week1; B_week2])
    by (vm_compute; reflexivity).
  assert (Hlen : List.length ["B"%string; "A"%string] =
                 List.length (horizon two_week_table 1 2)) by reflexivity.
  assert (Hnd : NoDup ["B"%string; "A"%string]).
  { constructor; [intros [E | []]; discriminate E |].
    constructor; [intros [] | constructor]. }
  assert (Hav : forall t, In t ["B"%string; "A"%string] ->
                  In t (team_columns two_week_table) /\ ~ In t []).
  { intros t Ht. split; [| intros []]. simpl in Ht. simpl. tauto. }
  split; [exact first_runtime_ok |].
  split; [exact two_week_table_conflict_free | split; [exact Hside |]].
  split; [exact Hrun | split; [exact Hlen | split; [exact Hnd |]]].
  split; [exact Hav |].
  exact (plan_maximises_expected_value first_runtime two_week_table 1 [] 2
           [A_week1; B_week2] ["B"%string; "A"%string]
           first_runtime_ok two_week_table_conflict_free Hside Hrun Hlen
           Hnd Hav).
Defined.

(** The scenario in numbers: 0.9 + 0.8 against 0.5 + 0.6. *)
Example two_week_totals :
  (qsum (map Expected_Value [A_week1; B_week2]) == 17 # 10)%Q /\
  (qsum (map (probability_of two_week_table)
           (combine (horizon two_week_table 1 2) ["B"%string; "A"%string]))
   == 11 # 10)%Q.
Proof. split; vm_compute; reflexivity. Qed.

(** * Gathering the odds *)

(** ** The moneylines of one game *)

Lemma fold_left_nested {S B C} (g : S -> C -> S) (sub : B -> list C)
    (l : list B) (init : S) :
  fold_left (fun acc b => fold_left g (sub b) acc) l init =
  fold_left g (flat_map sub l) init.
Proof.
  revert init. induction l as [| b r IH]; intros init; simpl; [reflexivity |].
  rewrite fold_left_app. apply IH.
Qed.

Lemma fold_left_agree {S B} (f g : S -> B -> S) (l : list B) (init : S) :
  (forall s b, f s b = g s b) -> fold_left f l init = fold_left g l init.
Proof.
  intros H. revert init.
  induction l as [| b r IH]; intros init; simpl; [reflexivity |].
  rewrite H. apply IH.
Qed.

(** The three nested loops are one loop over [h2h_outcomes]. *)
Lemma game_data_of_outcomes (week : Z) (game : Game) :
  game_data_of week game =
  fold_left (outcome_step game) (h2h_outcomes game)
    (mkGameData week (home_team game) (away_team game) (commence_time game)
       None None).
Proof.
  unfold game_data_of, h2h_outcomes.
  rewrite <- fold_left_nested. apply fold_left_agree.
  intros gd bookmaker. unfold bookmaker_step.
  destruct (String.eqb (bookmaker_key bookmaker) "draftkings");
    [| reflexivity].
  rewrite <- fold_left_nested. apply fold_left_agree.
  intros gd' market. unfold market_step.
  destruct (String.eqb (market_key market) "h2h"); reflexivity.
Qed.

Lemma find_last_snoc {A} (f : A -> bool) (l : list A) (a : A) :
  find_last f (l ++ [a]) = if f a then Some a else find_last f l.
Proof. unfold find_last. rewrite rev_app_distr. reflexivity. Qed.

Lemma outcomes_fold (game : Game) (outs : list Outcome) (gd0 : GameData) :
  let gd := fold_left (outcome_step game) outs gd0 in
  Home_Team_Moneyline gd =
    match find_last (fun o => String.eqb (outcome_name o) (home_team game))
            outs with
    | Some o => Some (outcome_price o)
    | None => Home_Team_Moneyline gd0
    end /\
  Away_Team_Moneyline gd =
    match find_last
            (fun o => negb (String.eqb (outcome_name o) (home_team game)) &&
                      String.eqb (outcome_name o) (away_team game))
            outs with
    | Some o => Some (outcome_price o)
    | None => Away_Team_Moneyline gd0
    end /\
  gd_Week gd = gd_Week gd0 /\
  gd_Home_Team gd = gd_Home_Team gd0 /\
  gd_Away_Team gd = gd_Away_Team gd0 /\
  gd_Commence_Time gd = gd_Commence_Time gd0.
Proof.
  induction outs as [| o outs IH] using rev_ind; simpl.
  - repeat split; reflexivity.
  - rewrite fold_left_app. simpl. rewrite !find_last_snoc.
    destruct IH as [Hh [Ha [Hw [Hht [Hat Hct]]]]].
    unfold outcome_step.
    destruct (String.eqb (outcome_name o) (home_team game)); simpl.
    + repeat split; assumption.
    + destruct (String.eqb (outcome_name o) (away_team game)); simpl;
        repeat split; assumption.
Qed.

(** X10. For each game, the home moneyline is the price of the last outcome
    bearing the home team's name among the h2h markets of the draftkings
    bookmakers, in the order of the response; the away moneyline is the price
    of the last such outcome that bears the away team's name and not the home
    team's; either is None when there is no such outcome. Other bookmakers
    and markets are never read, and week, teams and time are copied. *)
Theorem moneylines_last_outcome (week : Z) (game : Game) :
  Home_Team_Moneyline (game_data_of week game) =
    option_map outcome_price
      (find_last (fun o => String.eqb (outcome_name o) (home_team game))
         (h2h_outcomes game)) /\
  Away_Team_Moneyline (game_data_of week game) =
    option_map outcome_price
      (find_last
         (fun o => negb (String.eqb (outcome_name o) (home_team game)) &&
                   String.eqb (outcome_name o) (away_team game))
         (h2h_outcomes game)) /\
  gd_Week (game_data_of week game) = week /\
  gd_Home_Team (game_data_of week game) = home_team game /\
  gd_Away_Team (game_data_of week game) = away_team game /\
  gd_Commence_Time (game_data_of week game) = commence_time game.
Proof.
  rewrite game_data_of_outcomes.
  destruct (outcomes_fold game (h2h_outcomes game)
              (mkGameData week (home_team game) (away_team game)
                 (commence_time game) None None))
    as [Hh [Ha [Hw [Hht [Hat Hct]]]]].
  rewrite Hh, Ha, Hw, Hht, Hat, Hct. simpl.
  split; [| split; [| repeat split]].
  - destruct (find_last _ (h2h_outcomes game)); reflexivity.
  - destruct (find_last _ (h2h_outcomes game)); reflexivity.
Qed.

(** In [example_game] the draftkings h2h market quotes A twice: the later
    price stands, and the price of the other bookmaker is not read. *)
Example example_game_data :
  game_data_of 1 example_game =
  mkGameData 1 "A" "B" "2024-09-08T17:00:00Z" (Some (16 # 10)) (Some (26 # 10)).
Proof. reflexivity. Qed.

Lemma game_data_week (week : Z) (game : Game) :
  gd_Week (game_data_of week game) = week.
Proof.
  rewrite game_data_of_outcomes.
  exact (proj1 (proj2 (proj2 (outcomes_fold game (h2h_outcomes game) _)))).
Qed.

(** ** The rows of [all_odds] *)

Lemma fold_left_append_map {A B} (f : A -> B) (l : list A) (acc : list B) :
  fold_left (fun all_odds a => all_odds ++ [f a]) l acc = acc ++ map f l.
Proof.
  revert acc. induction l as [| a r IH]; intros acc; simpl.
  - rewrite app_nil_r. reflexivity.
  - rewrite IH, <- app_assoc. reflexivity.
Qed.

Lemma week_step_eq (http : Http) (api_key : string)
    (state : list string * list GameData) (week : Z) :
  week_step http api_key state week =
  (fst state ++
     (if status_code (response_of http api_key week) =? 200 then []
      else [failed_message (response_of http api_key week)]),
   snd state ++
     (if status_code (response_of http api_key week) =? 200
      then map (game_data_of week) (json (response_of http api_key week))
      else [])).
Proof.
  unfold week_step, get_weekly_odds. fold (response_of http api_key week).
  destruct (status_code (response_of http api_key week) =? 200); simpl.
  - destruct (json (response_of http api_key week)) as [| g gs]; simpl.
    + rewrite !app_nil_r. reflexivity.
    + rewrite fold_left_append_map, <- app_assoc. reflexivity.
  - rewrite !app_nil_r. reflexivity.
Qed.

Lemma weeks_fold (http : Http) (api_key : string) (weeks : list Z)
    (state : list string * list GameData) :
  fold_left (week_step http api_key) weeks state =
  (fst state ++
     flat_map (fun week =>
       if status_code (response_of http api_key week) =? 200 then []
       else [failed_message (response_of http api_key week)]) weeks,
   snd state ++
     flat_map (fun week =>
       if status_code (response_of http api_key week) =? 200
       then map (game_data_of week) (json (response_of http api_key week))
       else []) weeks).
Proof.
  revert state. induction weeks as [| w r IH]; intros state; simpl.
  - rewrite !app_nil_r. destruct state. reflexivity.
  - rewrite IH, week_step_eq. simpl. rewrite <- !app_assoc. reflexivity.
Qed.

Lemma all_odds_of_eq (http : Http) (api_key : string) :
  all_odds_of http api_key =
  (flat_map (fun week =>
     if status_code (response_of http api_key week) =? 200 then []
     else [failed_message (response_of http api_key week)]) range_1_19,
   flat_map (fun week =>
     if status_code (response_of http api_key week) =? 200
     then map (game_data_of week) (json (response_of http api_key week))
     else []) range_1_19).
Proof. unfold all_odds_of. rewrite weeks_fold. reflexivity. Qed.

Lemma week_rows_week (http : Http) (api_key : string) (week : Z)
    (r : GameData) :
  In r (if status_code (response_of http api_key week) =? 200
        then map (game_data_of week) (json (response_of http api_key week))
        else []) ->
  gd_Week r = week.
Proof.
  destruct (status_code (response_of http api_key week) =? 200);
    [| contradiction].
  intros H. apply in_map_iff in H. destruct H as [g [<- _]].
  apply game_data_week.
Qed.

Lemma range_1_19_In (w : Z) : In w range_1_19 <-> 1 <= w <= 18.
Proof.
  unfold range_1_19. rewrite in_map_iff. split.
  - intros [n [<- Hn]]. apply in_seq in Hn. lia.
  - intros H. exists (Z.to_nat w). split; [lia |]. apply in_seq. lia.
Qed.

Lemma range_1_19_sorted : StronglySorted Z.le range_1_19.
Proof.
  apply Sorted_StronglySorted.
  - intros a b c. apply Z.le_trans.
  - unfold range_1_19. simpl. repeat constructor; lia.
Qed.

Lemma range_1_19_NoDup : NoDup range_1_19.
Proof.
  unfold range_1_19. apply Finite.Injective_map_NoDup_in.
  - intros a b _ _. apply Nat2Z.inj.
  - apply seq_NoDup.
Qed.

(** X11. Whatever the server answers, the rows of [all_odds] are in week
    order: the Week column is nondecreasing and every week is one of
    1 to 18. *)
Theorem all_odds_in_week_order (http : Http) (api_key : string) :
  StronglySorted Z.le (map gd_Week (snd (all_odds_of http api_key))) /\
  forall r, In r (snd (all_odds_of http api_key)) -> 1 <= gd_Week r <= 18.
Proof.
  rewrite all_odds_of_eq. cbn [snd]. split.
  - apply flat_map_weeks_sorted; [| exact range_1_19_sorted].
    intros w r. apply week_rows_week.
  - intros r Hr. apply in_flat_map in Hr. destruct Hr as [w [Hw Hr]].
    rewrite (week_rows_week http api_key w r Hr).
    apply range_1_19_In. exact Hw.
Qed.

Lemma filter_week_rows {A} (week_of : A -> Z) (rows : Z -> list A)
    (weeks : list Z) (w : Z) :
  (forall v r, In r (rows v) -> week_of r = v) ->
  NoDup weeks -> In w weeks ->
  filter (fun r => week_of r =? w) (flat_map rows weeks) = rows w.
Proof.
  intros Hrows Hnd. induction Hnd as [| v l Hnotin Hnd IH]; intros Hw;
    [contradiction |].
  simpl. rewrite filter_app.
  assert (Hrest : forall u, ~ In u l ->
            filter (fun r => week_of r =? u) (flat_map rows l) = []).
  { intros u Hu. apply filter_none. intros r Hr.
    apply in_flat_map in Hr. destruct Hr as [x [Hx Hr]].
    rewrite (Hrows x r Hr). apply Z.eqb_neq. intros E. subst x. contradiction. }
  destruct Hw as [-> | Hw].
  - rewrite (Hrest w Hnotin), app_nil_r. apply filter_all.
    intros r Hr. rewrite (Hrows w r Hr). apply Z.eqb_refl.
  - rewrite IH by exact Hw. rewrite filter_none; [reflexivity |].
    intros r Hr. rewrite (Hrows v r Hr). apply Z.eqb_neq.
    intros E. subst v. contradiction.
Qed.

(** X12. The rows of a week are exactly the games of that week's response,
    in order, when its status is 200, and none otherwise; a week that fails
    prints one line and takes no row from any other week. *)
Theorem week_rows_isolated (http : Http) (api_key : string) (w : Z) :
  1 <= w <= 18 ->
  filter (fun r => gd_Week r =? w) (snd (all_odds_of http api_key)) =
    (if status_code (response_of http api_key w) =? 200
     then map (game_data_of w) (json (response_of http api_key w))
     else []) /\
  fst (all_odds_of http api_key) =
    flat_map (fun week =>
      if status_code (response_of http api_key week) =? 200 then []
      else [failed_message (response_of http api_key week)]) range_1_19.
Proof.
  intros Hw. rewrite all_odds_of_eq. cbn [fst snd].
  split; [| reflexivity].
  apply (filter_week_rows gd_Week
           (fun week =>
              if status_code (response_of http api_key week) =? 200
              then map (game_data_of week)
                     (json (response_of http api_key week))
              else [])).
  - intros v r. apply week_rows_week.
  - exact range_1_19_NoDup.
  - apply range_1_19_In. exact Hw.
Qed.

Lemma week_rows_isolated_witness :
  1 <= 1 <= 18 /\
  filter (fun r => gd_Week r =? 1) (snd (all_odds_of example_http "key")) =
    (if status_code (response_of example_http "key" 1) =? 200
     then map (game_data_of 1) (json (response_of example_http "key" 1))
     else []) /\
  fst (all_odds_of example_http "key") =
    flat_map (fun week =>
      if status_code (response_of example_http "key" week) =? 200 then []
      else [failed_message (response_of example_http "key" week)])
      range_1_19.
Proof.
  assert (H : 1 <= 1 <= 18) by lia.
  split; [exact H |].
  exact (week_rows_isolated example_http "key" 1 H).
Defined.

(** With [example_http], week 1 gives one row and each of the other 17
    weeks prints its failure. *)
Example example_all_odds :
  snd (all_odds_of example_http "key") =
    [mkGameData 1 "A" "B" "2024-09-08T17:00:00Z"
       (Some (16 # 10)) (Some (26 # 10))] /\
  fst (all_odds_of example_http "key") =
    repeat "Failed to get data: 404, Not Found"%string 17.
Proof. split; vm_compute; reflexivity. Qed.
